(** * SeismicPro plotting helpers ([geolog/src/utils.py])

    A shallow embedding of [IndexTracker], [seismic_plot] and
    [spectrum_plot], and the properties of the specification that were
    checked against it.

    Modelling conventions.
    - Python integers are [Z]; [len] is [Z.of_nat (length _)] and [//] by a
      positive divisor is [Z.div] (both round towards minus infinity).
    - [np.clip] returns a NumPy scalar of 64 bits, which the scroller keeps
      as its index: [Integer] tells a Python [int] from an [int64] and a
      [uint64], arithmetic on the last two wraps around and refuses a
      Python [int] that does not fit (NumPy 2 on a 64-bit platform).
    - numbers stored in arrays, frequencies, powers and the sampling
      interval are IEEE 754 binary64 numbers, Rocq's primitive [float], with
      the operations of the processor; an integer is converted to the
      nearest one by [float_of_nat].
    - matplotlib is an external collaborator that the code only ever calls
      and never reads back, so an axes object is the list of calls it has
      received, oldest first, and [pyplot] is the list of calls made through
      the module.
    - an exception leaves every mutation made before it in place, hence the
      state-and-exception monad [M] returns the state in both outcomes. *)

From Stdlib Require Import ZArith List String Bool Lia DecimalString.
From Stdlib Require Import Floats Uint63.
Import ListNotations.
Open Scope string_scope.
Open Scope list_scope.
Open Scope Z_scope.

Set Implicit Arguments.

(** ** Exceptions and the effect monad *)

Inductive Exc : Type :=
| IndexError
| ValueError
| NameError
| TypeError
| OverflowError
| ZeroDivisionError
| AttributeError.

Inductive result (A : Type) : Type :=
| Ok (a : A)
| Raise (e : Exc).

Arguments Ok {A} a.
Arguments Raise {A} e.

Definition M (S A : Type) : Type := S -> S * result A.

Definition ret {S A : Type} (a : A) : M S A := fun s => (s, Ok a).

Definition bind {S A B : Type} (c : M S A) (k : A -> M S B) : M S B :=
  fun s =>
    match c s with
    | (s', Ok a) => k a s'
    | (s', Raise e) => (s', Raise e)
    end.

Definition lift {S A : Type} (r : result A) : M S A := fun s => (s, r).

Definition gets {S A : Type} (f : S -> A) : M S A := fun s => (s, Ok (f s)).

Definition modify {S : Type} (f : S -> S) : M S unit := fun s => (f s, Ok tt).

Declare Scope py_scope.
Delimit Scope py_scope with py.

Notation "x <- c1 ;; c2" := (bind c1 (fun x => c2))
  (at level 100, c1 at next level, right associativity) : py_scope.
Notation "c1 ;; c2" := (bind c1 (fun _ => c2))
  (at level 100, right associativity) : py_scope.

Open Scope py_scope.

(** [for i, x in enumerate(l): body(i, x)], counting from [i]. *)
Fixpoint for_enumerate {S A : Type} (body : nat -> A -> M S unit)
    (i : nat) (l : list A) : M S unit :=
  match l with
  | [] => ret tt
  | x :: l' => body i x ;; for_enumerate body (Datatypes.S i) l'
  end.

(** ** Python values *)

(** What an attribute such as [event.button] may hold. *)
Inductive PyVal : Type :=
| VStr (s : string)
| VInt (z : Z)
| VNone.

(** [a == b] on the values above. *)
Definition py_eq (a b : PyVal) : bool :=
  match a, b with
  | VStr s, VStr t => String.eqb s t
  | VInt x, VInt y => Z.eqb x y
  | VNone, VNone => true
  | _, _ => false
  end.

(** [str(z)] *)
Definition str_int (z : Z) : string := NilZero.string_of_int (Z.to_int z).

(** ['%s' % v] *)
Definition percent_s (v : PyVal) : string :=
  match v with
  | VStr s => s
  | VInt z => str_int z
  | VNone => "None"
  end.

(** [len(l)] *)
Definition len {A : Type} (l : list A) : Z := Z.of_nat (List.length l).

(** [l[i]] on a list or tuple: a negative index counts from the end, an
    index outside [-len, len) raises [IndexError]. *)
Definition py_getitem {A : Type} (l : list A) (i : Z) : result A :=
  let j := if i <? 0 then i + len l else i in
  if (0 <=? j) && (j <? len l) then
    match nth_error l (Z.to_nat j) with
    | Some x => Ok x
    | None => Raise IndexError
    end
  else Raise IndexError.

(** ** Python and NumPy integers *)

(** An integer as the code holds it: a Python [int], of any size, or a
    NumPy scalar of type [int64] or [uint64]. The index of the scroller
    is a Python [int] at construction and a NumPy scalar after the first
    event, [np.clip] returning one. The arithmetic is that of NumPy 2 on
    a 64-bit platform: a Python [int] operand takes the type of the
    scalar it meets. *)
Inductive Integer : Type :=
| PyInt (z : Z)
| Int64 (z : Z)
| UInt64 (z : Z).

(** Its value, which is what [l[i]] reads through [__index__]. *)
Definition int_value (i : Integer) : Z :=
  match i with
  | PyInt z => z
  | Int64 z => z
  | UInt64 z => z
  end.

Definition fits_int64 (z : Z) : bool := (- 2 ^ 63 <=? z) && (z <? 2 ^ 63).

Definition fits_uint64 (z : Z) : bool := (0 <=? z) && (z <? 2 ^ 64).

(** The low 64 bits of [z], read as a signed and as an unsigned number. *)
Definition wrap_int64 (z : Z) : Z := (z + 2 ^ 63) mod 2 ^ 64 - 2 ^ 63.

Definition wrap_uint64 (z : Z) : Z := z mod 2 ^ 64.

(** [i + k] and [i - k], for [op] the addition or the subtraction and [k]
    a Python [int]. On a Python [int] the result is exact. On a NumPy
    scalar [k] is first converted to the type of the scalar, which raises
    [OverflowError] when it does not fit, and the result wraps around (with
    a warning only). *)
Definition np_binop (op : Z -> Z -> Z) (i : Integer) (k : Z)
    : result Integer :=
  match i with
  | PyInt z => Ok (PyInt (op z k))
  | Int64 z =>
      if fits_int64 k then Ok (Int64 (wrap_int64 (op z k)))
      else Raise OverflowError
  | UInt64 z =>
      if fits_uint64 k then Ok (UInt64 (wrap_uint64 (op z k)))
      else Raise OverflowError
  end.

(** [minimum(maximum(x, lo), hi)] *)
Definition clip_value (x lo hi : Z) : Z := Z.min (Z.max x lo) hi.

(** Clipping within an integer type of range [mn, mx] between the Python
    [int]s [lo] and [hi]: a bound that the type cannot reach from outside
    clips nothing, a bound on the wrong side of the range cannot be
    converted. *)
Definition clip_in (mk : Z -> Integer) (mn mx : Z) (z lo hi : Z)
    : result Integer :=
  if (mx <? lo) || (hi <? mn) then Raise OverflowError
  else Ok (mk (clip_value z lo hi)).

(** [np.clip(x, lo, hi)] for Python [int]s [lo] and [hi]. A Python [int]
    [x] is first made an array, of type [int64] if it fits, else [uint64]
    if it fits, else of Python objects; the result is a scalar of that
    type. *)
Definition np_clip (x : Integer) (lo hi : Z) : result Integer :=
  match x with
  | PyInt z =>
      if fits_int64 z then clip_in Int64 (- 2 ^ 63) (2 ^ 63 - 1) z lo hi
      else if fits_uint64 z then clip_in UInt64 0 (2 ^ 64 - 1) z lo hi
      else Ok (PyInt (clip_value z lo hi))
  | Int64 z => clip_in Int64 (- 2 ^ 63) (2 ^ 63 - 1) z lo hi
  | UInt64 z => clip_in UInt64 0 (2 ^ 64 - 1) z lo hi
  end.

(** ** Floating-point numbers *)

(** [float(n)] for an integer [0 <= n < 2**63], as array sizes are. *)
Definition float_of_nat (n : nat) : float :=
  PrimFloat.of_uint63 (Uint63.of_Z (Z.of_nat n)).

(** ** Two-dimensional arrays *)

Record ndarray2 : Type := {
  shape0 : nat;
  shape1 : nat;
  item : nat -> nat -> float
}.

(** [a.T] *)
Definition T (a : ndarray2) : ndarray2 :=
  {| shape0 := shape1 a;
     shape1 := shape0 a;
     item := fun i j => item a j i |}.

(** The rows of [a], as [list(a)] would give them. *)
Definition rows (a : ndarray2) : list (list float) :=
  map (fun i => map (item a i) (seq 0 (shape1 a))) (seq 0 (shape0 a)).

(** ** The rendering surface *)

Inductive KwVal : Type :=
| KwStr (s : string)
| KwNum (x : float)
| KwNone.

(** [**kwargs], forwarded untouched to [imshow]. *)
Definition Kwargs : Type := list (string * KwVal).

(** [patches.Rectangle(xy, width, height, edgecolor=, facecolor=, lw=)] *)
Record Rectangle : Type := {
  xy : Z * Z;
  width : Z;
  height : Z;
  edgecolor : string;
  facecolor : string;
  rect_lw : Z
}.

(** Calls on one axes object. *)
Inductive AxCall : Type :=
| Clear
| Imshow (img : ndarray2) (kw : Kwargs)
| SetTitle (s : string)
| SetAspect (s : string)
| SetYlim (lo hi : Z)
| SetXlim (lo hi : Z)
| AddPatch (r : Rectangle)
| Plot (xs ys : list float) (lw : Z)
| SetXlabel (s : string).

(** ** [class IndexTracker] *)

Module MouseEvent.
(** The two attributes of a matplotlib scroll event that the handler
    reads. *)
Record t : Type := {
  button : PyVal;
  step : Z
}.
End MouseEvent.

Module IndexTracker.

Record t : Type := {
  ax : list AxCall;
  frames : list ndarray2;
  step : Z;
  frame_names : list string;
  img_kwargs : Kwargs;
  ind : Integer
}.

(** The object together with the process's standard output. *)
Record World : Type := {
  self : t;
  stdout : list string
}.

Definition set_ind (i : Integer) : M World unit :=
  modify (fun w =>
    {| self := {| ax := ax (self w);
                  frames := frames (self w);
                  step := step (self w);
                  frame_names := frame_names (self w);
                  img_kwargs := img_kwargs (self w);
                  ind := i |};
       stdout := stdout w |}).

(** One call on [self.ax]. *)
Definition ax_call (c : AxCall) : M World unit :=
  modify (fun w =>
    {| self := {| ax := ax (self w) ++ [c];
                  frames := frames (self w);
                  step := step (self w);
                  frame_names := frame_names (self w);
                  img_kwargs := img_kwargs (self w);
                  ind := ind (self w) |};
       stdout := stdout w |}).

Definition print (line : string) : M World unit :=
  modify (fun w => {| self := self w; stdout := stdout w ++ [line] |}).

Definition update : M World unit :=
  ax_call Clear ;;
  fs <- gets (fun w => frames (self w)) ;;
  i <- gets (fun w => ind (self w)) ;;
  img <- lift (py_getitem fs (int_value i)) ;;
  kw <- gets (fun w => img_kwargs (self w)) ;;
  ax_call (Imshow (T img) kw) ;;
  names <- gets (fun w => frame_names (self w)) ;;
  name <- lift (py_getitem names (int_value i)) ;;
  ax_call (SetTitle (percent_s (VStr name))) ;;
  ax_call (SetAspect "auto") ;;
  ax_call (SetYlim (Z.of_nat (shape1 img)) 0) ;;
  ax_call (SetXlim 0 (Z.of_nat (shape0 img))).

(** [IndexTracker(ax, frames, frame_names, scroll_step, **kwargs)], run
    with [out] already printed. The object exists for the caller only when
    the result is [Ok]. *)
Definition __init__ (ax0 : list AxCall) (frames0 : list ndarray2)
    (frame_names0 : list string) (scroll_step : Z) (kwargs : Kwargs)
    (out : list string) : World * result unit :=
  update
    {| self := {| ax := ax0;
                  frames := frames0;
                  step := scroll_step;
                  frame_names := frame_names0;
                  img_kwargs := kwargs;
                  ind := PyInt (len frames0 / 2) |};
       stdout := out |}.

Definition onscroll (event : MouseEvent.t) : M World unit :=
  print (String.append (percent_s (MouseEvent.button event))
           (String.append " " (percent_s (VInt (MouseEvent.step event))))) ;;
  i <- gets (fun w => ind (self w)) ;;
  st <- gets (fun w => step (self w)) ;;
  fs <- gets (fun w => frames (self w)) ;;
  (if py_eq (MouseEvent.button event) (VStr "up")
   then
     x <- lift (np_binop Z.add i st) ;;
     c <- lift (np_clip x 0 (len fs - 1)) ;;
     set_ind c
   else
     x <- lift (np_binop Z.sub i st) ;;
     c <- lift (np_clip x 0 (len fs - 1)) ;;
     set_ind c) ;;
  update.

(** The backend delivers the events one at a time; an exception raised by
    a callback is reported and the event loop goes on. [scroll_run] lists
    the outcome of every event, in order. *)
Fixpoint scroll_run (w : World) (events : list MouseEvent.t)
    : list (World * result unit) :=
  match events with
  | [] => []
  | e :: events' =>
      let o := onscroll e w in
      o :: scroll_run (fst o) events'
  end.

End IndexTracker.

(** ** [matplotlib.pyplot] *)

(** Calls made through the [plt] module and on the axes of the grid that
    [plt.subplots] returned; [OnAx r c call] is [ax[r, c].call]. *)
Inductive PltCall : Type :=
| Subplots (nrows ncols : nat) (figsize : option (float * float)) (squeeze : bool)
| OnAx (row col : nat) (c : AxCall)
| Savefig (path : string)
| Show.

Definition Plt (A : Type) : Type := M (list PltCall) A.

Definition emit (c : PltCall) : Plt unit := modify (fun tr => tr ++ [c]).

(** [plt.subplots(nrows, ncols, figsize=figsize, squeeze=False)]; matplotlib
    refuses a grid without columns. *)
Definition subplots (nrows ncols : nat) (figsize : option (float * float)) : Plt unit :=
  emit (Subplots nrows ncols figsize false) ;;
  if (ncols =? 0)%nat then lift (Raise ValueError) else ret tt.

(** ** The [arrs] and [names] arguments *)

(** [arrs] is one 2-D array or a (possibly nested) sequence of them. *)
#[warnings="-register-all"]
Inductive PyArr : Type :=
| Arr (a : ndarray2)
| Tup (l : list PyArr).

Fixpoint shape_eqb (s t : list nat) : bool :=
  match s, t with
  | [], [] => true
  | x :: s', y :: t' => (x =? y)%nat && shape_eqb s' t'
  | _, _ => false
  end.

(** [np.asarray(x).shape]: a sequence of [n] items of one shape [s] has
    shape [n :: s], the empty sequence has shape [(0,)], and a ragged
    sequence ([None]) is refused by NumPy with [ValueError]. *)
Fixpoint np_shape (x : PyArr) : option (list nat) :=
  match x with
  | Arr a => Some [shape0 a; shape1 a]
  | Tup l =>
      match map np_shape l with
      | [] => Some [0%nat]
      | Some s :: rest =>
          if forallb (fun o => match o with
                               | Some s' => shape_eqb s s'
                               | None => false
                               end) rest
          then Some (List.length l :: s)
          else None
      | None :: _ => None
      end
  end.

(** [np.asarray(x).ndim] *)
Definition np_asarray_ndim (x : PyArr) : result Z :=
  match np_shape x with
  | Some s => Ok (len s)
  | None => Raise ValueError
  end.

(** The items that [enumerate(x)] walks through. The [Arr] case is never
    asked for: both callers iterate [x] only after [np.asarray(x).ndim]
    was found different from 2. *)
Definition py_iter (x : PyArr) : result (list PyArr) :=
  match x with
  | Tup l => Ok l
  | Arr _ => Raise TypeError
  end.

(** [if np.asarray(arrs).ndim == 2: arrs = (arrs,)] *)
Definition wrap_single (arrs : PyArr) : result (list PyArr) :=
  match np_asarray_ndim arrs with
  | Ok nd => if nd =? 2 then Ok [arrs] else py_iter arrs
  | Raise e => Raise e
  end.

Inductive Names : Type :=
| NameStr (s : string)
| NameSeq (l : list string).

(** [if isinstance(names, str): names = (names,)] *)
Definition wrap_names (names : option Names) : option (list string) :=
  match names with
  | Some (NameStr s) => Some [s]
  | Some (NameSeq l) => Some l
  | None => None
  end.

(** ** [seismic_plot] *)

Definition seismic_plot (arrs : PyArr) (names : option Names)
    (figsize : option (float * float)) (save_to : option string) (kwargs : Kwargs)
    : Plt unit :=
  arrs <- lift (wrap_single arrs) ;;
  let names := wrap_names names in
  subplots 1 (List.length arrs) figsize ;;
  for_enumerate
    (fun i arr =>
       match arr with
       | Arr a =>
           emit (OnAx 0 i (Imshow (T a) kwargs)) ;;
           match names with
           | Some l =>
               title <- lift (py_getitem l (Z.of_nat i)) ;;
               emit (OnAx 0 i (SetTitle title))
           | None => ret tt
           end ;;
           emit (OnAx 0 i (SetAspect "auto"))
       | Tup _ => lift (Raise AttributeError)
       end)
    0%nat arrs ;;
  emit Show.

(** ** [spectrum_plot] *)

(** A [slice(start, stop)] with integer bounds. *)
Record slice : Type := {
  start : Z;
  stop : Z
}.

(** The offset and the number of the indices that [s] selects on an axis of
    length [n]: a negative bound counts from the end and both bounds are
    clipped to the axis. *)
Definition slice_indices (s : slice) (n : nat) : nat * nat :=
  let norm v := if v <? 0 then Z.max (v + Z.of_nat n) 0
                else Z.min v (Z.of_nat n) in
  let lo := norm (start s) in
  let hi := norm (stop s) in
  (Z.to_nat lo, Z.to_nat (Z.max (hi - lo) 0)).

(** [a[frame]] for a pair of slices. *)
Definition getitem2 (a : ndarray2) (frame : slice * slice) : ndarray2 :=
  let r := slice_indices (fst frame) (shape0 a) in
  let c := slice_indices (snd frame) (shape1 a) in
  {| shape0 := snd r;
     shape1 := snd c;
     item := fun i j => item a (fst r + i) (fst c + j) |}.

(** What may stand between the brackets of [freqs[...]]. *)
Inductive Index : Type :=
| BoolMask (m : list bool)
| FloatIndex (m : list float).

(** [a[idx]] on a 1-D array: a boolean mask of the length of [a] keeps the
    items it marks; an array of floats is not an index. *)
Definition np_getitem (a : list float) (idx : Index) : result (list float) :=
  match idx with
  | BoolMask m =>
      if (List.length m =? List.length a)%nat
      then Ok (map fst (filter snd (combine a m)))
      else Raise IndexError
  | FloatIndex _ => Raise IndexError
  end.

(** Number of one-sided bins of a signal of [n] samples: [n // 2 + 1]. *)
Definition n_bins (n : nat) : nat := (n / 2 + 1)%nat.

(** [np.fft.rfftfreq(n, d)] for a Python float [d]:
    [val = 1.0 / (n * d)], which Python refuses when [n * d] is zero, then
    [arange(0, n // 2 + 1) * val], all in double precision. *)
Definition rfftfreq (n : nat) (d : float) : result (list float) :=
  let nd := (float_of_nat n * d)%float in
  if (nd =? 0)%float then Raise ZeroDivisionError
  else
    let val := (1 / nd)%float in
    Ok (map (fun k => (float_of_nat k * val)%float) (seq 0 (n_bins n))).

Section Spectrum.

(** The numeric collaborator: [rfft_power row k] is
    [abs(np.fft.rfft(row)[k]) ** 2] and [np_mean] the mean of a
    column of such values. *)
Variable rfft_power : list float -> nat -> float.
Variable np_mean : list float -> float.

(** The global name [timestep] of the module. The file never binds it:
    it holds a value only if another module has set it. *)
Variable timestep : option float.

(** [abs(np.fft.rfft(block, axis=1)) ** 2]; a transform over no sample is
    refused. *)
Definition power_spectrum (block : ndarray2) : result (list (list float)) :=
  if (shape1 block =? 0)%nat then Raise ValueError
  else Ok (map (fun row => map (rfft_power row)
                               (seq 0 (n_bins (shape1 block))))
               (rows block)).

(** [np.mean(spec, axis=0)] for a [spec] of [ncols] columns. *)
Definition mean_axis0 (spec : list (list float)) (ncols : nat) : list float :=
  map (fun k => np_mean (map (fun row => nth k row 0%float) spec))
      (seq 0 ncols).

Definition label_of (names : option (list string)) (i : nat)
    : result string :=
  match names with
  | Some l => py_getitem l (Z.of_nat i)
  | None => Ok ""
  end.

Definition spectrum_plot (frame : slice * slice) (arrs : PyArr) (rate : float)
    (max_freq : option float) (names : option Names)
    (figsize : option (float * float)) (save_to : option string)
    (kwargs : Kwargs) : Plt unit :=
  arrs <- lift (wrap_single arrs) ;;
  let names := wrap_names names in
  subplots 2 (List.length arrs) figsize ;;
  for_enumerate
    (fun i arr =>
       match arr with
       | Arr a =>
           emit (OnAx 0 i (Imshow (T a) kwargs)) ;;
           emit (OnAx 0 i (AddPatch
             {| xy := (start (fst frame), start (snd frame));
                width := stop (fst frame) - start (fst frame);
                height := stop (snd frame) - start (snd frame);
                edgecolor := "r";
                facecolor := "none";
                rect_lw := 2 |})) ;;
           label <- lift (label_of names i) ;;
           emit (OnAx 0 i (SetTitle (String.append "Seismogram " label))) ;;
           emit (OnAx 0 i (SetAspect "auto")) ;;
           let block := getitem2 a frame in
           spec <- lift (power_spectrum block) ;;
           (if (shape0 block =? 0)%nat
            then lift (Raise IndexError) else ret tt) ;;
           d <- lift (match timestep with
                      | Some d => Ok d
                      | None => Raise NameError
                      end) ;;
           freqs <- lift (rfftfreq (shape1 block) d) ;;
           let mask := match max_freq with
                       | Some m => BoolMask (map (fun f => PrimFloat.leb f m) freqs)
                       | None => FloatIndex freqs
                       end in
           xs <- lift (np_getitem freqs mask) ;;
           ys <- lift (np_getitem
                         (mean_axis0 spec (n_bins (shape1 block))) mask) ;;
           emit (OnAx 1 i (Plot xs ys 2)) ;;
           emit (OnAx 1 i (SetXlabel "Hz")) ;;
           label' <- lift (label_of names i) ;;
           emit (OnAx 1 i (SetTitle (String.append "Spectrum plot " label'))) ;;
           emit (OnAx 1 i (SetAspect "auto"))
       | Tup _ => lift (Raise AttributeError)
       end)
    0%nat arrs ;;
  match save_to with
  | Some path => emit (Savefig path)
  | None => ret tt
  end ;;
  emit Show.

End Spectrum.

(** ** [partialmethod] *)

Section Partialmethod.

(** The bound object, the values passed as arguments, the state that a
    call may read and change, and what a call returns. *)
Variables (Self V St R : Type).






End Partialmethod.

(** * Specification-side definitions *)

(** ** FrameScroller, in the words of the specification *)

(** "Clamping: constraining a value to a closed range by capping rather than
    wrapping." *)
Definition clamp (x lo hi : Z) : Z :=
  if x <? lo then lo else if hi <? x then hi else x.

(** The two admissible directions. *)
Inductive Direction : Type :=
| Increase
| Decrease.

(** The scroll-event source delivers "a direction indicator ("up"/other)". *)
Definition direction (event : MouseEvent.t) : Direction :=
  if py_eq (MouseEvent.button event) (VStr "up") then Increase else Decrease.

(** "On increase: index = clamp(index + step, 0, N-1). On decrease:
    index = clamp(index - step, 0, N-1)." *)
Definition spec_scroll (N step index : Z) (d : Direction) : Z :=
  match d with
  | Increase => clamp (index + step) 0 (N - 1)
  | Decrease => clamp (index - step) 0 (N - 1)
  end.

(** The indices displayed after each of a sequence of directional inputs. *)
Fixpoint spec_indices (N step index : Z) (ds : list Direction) : list Z :=
  match ds with
  | [] => []
  | d :: ds' =>
      let index' := spec_scroll N step index d in
      index' :: spec_indices N step index' ds'
  end.

(** The redraw operation: clear, image of the transposed frame, title,
    auto aspect, inverted vertical extent, horizontal extent. *)
Definition redraw_calls (img : ndarray2) (name : string) (kw : Kwargs)
    : list AxCall :=
  [ Clear;
    Imshow (T img) kw;
    SetTitle name;
    SetAspect "auto";
    SetYlim (Z.of_nat (shape1 img)) 0;
    SetXlim 0 (Z.of_nat (shape0 img)) ].

Module TrackerFacts.
Import IndexTracker.

(** [w] after [calls] were made on its axes and its index became [i]. *)
Definition redrawn (w : World) (i : Integer) (calls : list AxCall)
    : World :=
  {| self := {| ax := ax (self w) ++ calls;
                frames := frames (self w);
                step := step (self w);
                frame_names := frame_names (self w);
                img_kwargs := img_kwargs (self w);
                ind := i |};
     stdout := stdout w |}.

(** [w] after [line] was printed. *)
Definition printed (w : World) (line : string) : World :=
  {| self := self w; stdout := stdout w ++ [line] |}.

(** The line that [onscroll] prints for [event]. *)
Definition echo (event : MouseEvent.t) : string :=
  String.append (percent_s (MouseEvent.button event))
    (String.append " " (percent_s (VInt (MouseEvent.step event)))).

(** Number of frames of the scroller. *)
Definition N (w : World) : Z := len (frames (self w)).

(** The displayed index, as a number. *)
Definition index (w : World) : Z := int_value (ind (self w)).

(** What one branch of the handler makes of the index [i]: the sum or the
    difference with the step [k], clipped to [0, hi], or the exception
    that stops it. *)
Definition moved (op : Z -> Z -> Z) (i : Integer) (k hi : Z)
    : result Integer :=
  match np_binop op i k with
  | Ok x => np_clip x 0 hi
  | Raise e => Raise e
  end.

(** A Python [int] or an [int64], as the index is at construction and
    after every event as long as no sum has reached [2**63]. *)
Definition signed (i : Integer) : Prop :=
  match i with
  | UInt64 _ => False
  | _ => True
  end.

(** The scroller shows a valid index and its arithmetic stays within 64
    bits: no sum or difference of an index and the step leaves the range
    of [int64]. A scroller built on [N] frames with a step of absolute
    value at most [2**63 - N] is in this state, and stays in it. *)
Definition within_int64 (w : World) : Prop :=
  0 <= index w <= N w - 1
  /\ signed (ind (self w))
  /\ Z.abs (step (self w)) <= 2 ^ 63 - N w.

(** The construction contract: some frame, and a label for each. *)
Definition labelled (w : World) : Prop :=
  frames (self w) <> []
  /\ (List.length (frames (self w)) <= List.length (frame_names (self w)))%nat.

(** The indices shown after each outcome of a run. *)
Definition indices (run : list (World * result unit)) : list Z :=
  map (fun o => index (fst o)) run.

End TrackerFacts.


(** ** The concrete scenario of the specification *)

Module Scenario.
Import IndexTracker.

(** An array of zeros of shape [(r, c)]. *)
Definition zeros (r c : nat) : ndarray2 :=
  {| shape0 := r; shape1 := c; item := fun _ _ => 0%float |}.

(** "frames = 5 arrays of shape (10,10)". *)
Definition frames5 : list ndarray2 := repeat (zeros 10 10) 5.

Definition names5 : list string := ["f0"; "f1"; "f2"; "f3"; "f4"].

(** The scroller that [IndexTracker(ax, frames5, names5)] builds on a
    fresh axes, with the default [scroll_step=1]. *)
Definition scroller : World := fst (__init__ [] frames5 names5 1 [] []).

Definition scroll (button : string) (magnitude : Z) : MouseEvent.t :=
  {| MouseEvent.button := VStr button; MouseEvent.step := magnitude |}.

(** "increase step 1, increase step 10, decrease step 10". *)
Definition events : list MouseEvent.t :=
  [scroll "up" 1; scroll "up" 10; scroll "down" 10].

(** A scroller over a single frame, showing it. *)
Definition single : World := fst (__init__ [] [zeros 10 10] ["f0"] 1 [] []).



End Scenario.

(** ** Reading a pyplot trace *)

(** The series handed to [plot], in the order of the calls. *)
Definition plotted (tr : list PltCall) : list (list float * list float) :=
  flat_map (fun c => match c with
                     | OnAx _ _ (Plot xs ys _) => [(xs, ys)]
                     | _ => []
                     end) tr.

(** The paths handed to [plt.savefig]. *)
Definition saved (tr : list PltCall) : list string :=
  flat_map (fun c => match c with
                     | Savefig path => [path]
                     | _ => []
                     end) tr.

(** [names] is absent or has a label for each of [n] columns. *)
Definition labels_cover (names : option Names) (n : nat) : Prop :=
  match wrap_names names with
  | Some l => (n <= List.length l)%nat
  | None => True
  end.

(** The calls of a loop whose [i]-th round makes the calls [calls i x]. *)
Fixpoint enum_calls {A C : Type} (calls : nat -> A -> list C)
    (i : nat) (l : list A) : list C :=
  match l with
  | [] => []
  | x :: l' => calls i x ++ enum_calls calls (S i) l'
  end.

(** ** AnnotatedSpectrumPlot, in the words of the specification *)

Section SpectrumSpec.

Variable rfft_power : list float -> nat -> float.
Variable np_mean : list float -> float.

(** "the corresponding one-sided frequency bins from the slice's row
    length and the sampling interval" *)
Definition bins (n : nat) (d : float) : list float :=
  map (fun k => (float_of_nat k
                 * (1 / (float_of_nat n * d)))%float)
      (seq 0 (n_bins n)).

(** "squared magnitude (power) ... average power across the first axis of
    the sliced block" *)
Definition averaged_power (block : ndarray2) : list float :=
  mean_axis0 np_mean
    (map (fun row => map (rfft_power row) (seq 0 (n_bins (shape1 block))))
         (rows block))
    (n_bins (shape1 block)).

(** "restrict displayed frequencies to freq <= max_freq": the bins that
    satisfy it, each with its averaged power. *)
Definition displayed_series (d m : float) (frame : slice * slice)
    (a : ndarray2) : list float * list float :=
  let block := getitem2 a frame in
  let kept := filter (fun p => PrimFloat.leb (fst p) m)
                (combine (bins (shape1 block) d) (averaged_power block)) in
  (map fst kept, map snd kept).

(** The calls of one column of the figure whose spectrum is drawn up to
    [m]: image, rectangle, title and aspect on the top row; curve, axis
    label, title and aspect on the bottom row. *)
Definition column_calls (d m : float) (frame : slice * slice)
    (names : option (list string)) (kwargs : Kwargs)
    (i : nat) (arr : PyArr) : list PltCall :=
  match arr with
  | Arr a =>
      let label := match label_of names i with
                   | Ok s => s
                   | Raise _ => ""
                   end in
      [ OnAx 0 i (Imshow (T a) kwargs);
        OnAx 0 i (AddPatch
          {| xy := (start (fst frame), start (snd frame));
             width := stop (fst frame) - start (fst frame);
             height := stop (snd frame) - start (snd frame);
             edgecolor := "r";
             facecolor := "none";
             rect_lw := 2 |});
        OnAx 0 i (SetTitle (String.append "Seismogram " label));
        OnAx 0 i (SetAspect "auto");
        OnAx 1 i (Plot (fst (displayed_series d m frame a))
                       (snd (displayed_series d m frame a)) 2);
        OnAx 1 i (SetXlabel "Hz");
        OnAx 1 i (SetTitle (String.append "Spectrum plot " label));
        OnAx 1 i (SetAspect "auto") ]
  | Tup _ => []
  end.

End SpectrumSpec.

(** ** A concrete seismogram *)

Module Example.

(** A 3 x 4 array with [a[i, j] = i + j]. *)
Definition ramp : ndarray2 :=
  {| shape0 := 3;
     shape1 := 4;
     item := fun i j => float_of_nat (i + j) |}.

(** Rows 0 and 1, all four columns. *)
Definition roi : slice * slice :=
  ({| start := 0; stop := 2 |}, {| start := 0; stop := 4 |}).

(** The one-sided power spectrum of a row of four samples, where the
    roots of unity are 1, -i, -1 and i and the squared magnitudes are sums
    and products of the samples; rows of another length are not used
    below. *)
Definition rfft_power4 (row : list float) (k : nat) : float :=
  match row, k with
  | [a; b; c; d], 0%nat => ((a + b + c + d) * (a + b + c + d))%float
  | [a; b; c; d], 1%nat => ((a - c) * (a - c) + (b - d) * (b - d))%float
  | [a; b; c; d], 2%nat => ((a - b + c - d) * (a - b + c - d))%float
  | _, _ => 0%float
  end.

(** The mean of a non-empty column. *)
Definition mean (l : list float) : float :=
  (fold_right PrimFloat.add 0 l / float_of_nat (List.length l))%float.

End Example.
(** ** The calls of one column, for both plotting functions *)

(** The calls of [seismic_plot] on column [i]: the transposed image, the
    title when labels are given, the aspect. *)
Definition image_calls (names : option (list string)) (kwargs : Kwargs)
    (i : nat) (arr : PyArr) : list PltCall :=
  match arr with
  | Arr a =>
      OnAx 0 i (Imshow (T a) kwargs)
      :: match names with
         | Some l =>
             match py_getitem l (Z.of_nat i) with
             | Ok title => [OnAx 0 i (SetTitle title)]
             | Raise _ => []
             end
         | None => []
         end
      ++ [OnAx 0 i (SetAspect "auto")]
  | Tup _ => []
  end.

(** The calls of [spectrum_plot] on the top row of column [i]. *)
Definition top_row_calls (frame : slice * slice) (label : string)
    (kwargs : Kwargs) (i : nat) (a : ndarray2) : list PltCall :=
  [ OnAx 0 i (Imshow (T a) kwargs);
    OnAx 0 i (AddPatch
      {| xy := (start (fst frame), start (snd frame));
         width := stop (fst frame) - start (fst frame);
         height := stop (snd frame) - start (snd frame);
         edgecolor := "r";
         facecolor := "none";
         rect_lw := 2 |});
    OnAx 0 i (SetTitle (String.append "Seismogram " label));
    OnAx 0 i (SetAspect "auto") ].

(** The calls of [spectrum_plot] on the bottom row of column [i]. *)
Definition bottom_row_calls (xs ys : list float) (label : string) (i : nat)
    : list PltCall :=
  [ OnAx 1 i (Plot xs ys 2);
    OnAx 1 i (SetXlabel "Hz");
    OnAx 1 i (SetTitle (String.append "Spectrum plot " label));
    OnAx 1 i (SetAspect "auto") ].

(** What lines 143 to 146 of the source compute for one array between the
    two rows of calls: the series to plot, or the first exception. *)
Definition series_of (rfft_power : list float -> nat -> float)
    (np_mean : list float -> float) (timestep max_freq : option float)
    (frame : slice * slice) (a : ndarray2) : result (list float * list float) :=
  let block := getitem2 a frame in
  match power_spectrum rfft_power block with
  | Raise e => Raise e
  | Ok spec =>
      if (shape0 block =? 0)%nat then Raise IndexError
      else
        match timestep with
        | None => Raise NameError
        | Some d =>
            match rfftfreq (shape1 block) d with
            | Raise e => Raise e
            | Ok freqs =>
                let mask := match max_freq with
                            | Some m =>
                                BoolMask (map (fun f => PrimFloat.leb f m) freqs)
                            | None => FloatIndex freqs
                            end in
                match np_getitem freqs mask with
                | Raise e => Raise e
                | Ok xs =>
                    match np_getitem
                            (mean_axis0 np_mean spec
                               (n_bins (shape1 block))) mask with
                    | Raise e => Raise e
                    | Ok ys => Ok (xs, ys)
                    end
                end
            end
        end
  end.

(** A call on an axes of the grid: neither [savefig] nor [show]. *)
Definition on_axes (c : PltCall) : Prop :=
  match c with
  | OnAx _ _ _ => True
  | _ => False
  end.



(** * Properties *)

(** ** Integers, lists *)

Lemma clip_value_is_clamp (x lo hi : Z) :
  lo <= hi -> clip_value x lo hi = clamp x lo hi.
Proof.
  intros Hle. unfold clip_value, clamp.
  destruct (Z.ltb_spec x lo) as [Hx | Hx].
  - rewrite Z.max_r by lia. apply Z.min_l. exact Hle.
  - rewrite Z.max_l by lia.
    destruct (Z.ltb_spec hi x) as [Hh | Hh].
    + apply Z.min_r. lia.
    + apply Z.min_l. exact Hh.
Qed.

Lemma clamp_bounds (x lo hi : Z) :
  lo <= hi -> lo <= clamp x lo hi <= hi.
Proof.
  intros Hle. unfold clamp.
  destruct (Z.ltb_spec x lo); [lia |].
  destruct (Z.ltb_spec hi x); lia.
Qed.

Lemma clamp_inside (x lo hi : Z) :
  lo <= x <= hi -> clamp x lo hi = x.
Proof.
  intros [Hlo Hhi]. unfold clamp.
  destruct (Z.ltb_spec x lo); [lia |].
  destruct (Z.ltb_spec hi x); [lia | reflexivity].
Qed.

Lemma clamp_cases (x lo hi : Z) :
  lo <= hi ->
  (x < lo /\ clamp x lo hi = lo)
  \/ (lo <= x <= hi /\ clamp x lo hi = x)
  \/ (hi < x /\ clamp x lo hi = hi).
Proof.
  intros Hle. unfold clamp.
  destruct (Z.ltb_spec x lo); [left; lia |].
  destruct (Z.ltb_spec hi x); [right; right; lia | right; left; lia].
Qed.

Lemma len_nonneg {A : Type} (l : list A) : 0 <= len l.
Proof. unfold len. lia. Qed.

Lemma len_pos {A : Type} (l : list A) : l <> [] -> 1 <= len l.
Proof.
  destruct l as [| x l']; [congruence |].
  intros _. unfold len. simpl List.length. lia.
Qed.

Lemma py_getitem_in_range {A : Type} (l : list A) (i : Z) :
  0 <= i < len l ->
  exists x, nth_error l (Z.to_nat i) = Some x /\ py_getitem l i = Ok x.
Proof.
  intros [Hlo Hhi].
  destruct (nth_error l (Z.to_nat i)) as [x |] eqn:Hnth.
  - exists x. split; [reflexivity |].
    unfold py_getitem.
    destruct (Z.ltb_spec i 0) as [Hneg | _]; [lia |].
    destruct (Z.leb_spec 0 i) as [_ | Hneg]; [| lia].
    destruct (Z.ltb_spec i (len l)) as [_ | Hbig]; [| lia].
    simpl. rewrite Hnth. reflexivity.
  - apply nth_error_None in Hnth. unfold len in Hhi. lia.
Qed.

(** ** Arithmetic on 64 bits *)

Lemma fits_int64_iff (z : Z) :
  fits_int64 z = true <-> - 2 ^ 63 <= z < 2 ^ 63.
Proof.
  unfold fits_int64. rewrite andb_true_iff, Z.leb_le, Z.ltb_lt. tauto.
Qed.

Lemma fits_uint64_iff (z : Z) :
  fits_uint64 z = true <-> 0 <= z < 2 ^ 64.
Proof.
  unfold fits_uint64. rewrite andb_true_iff, Z.leb_le, Z.ltb_lt. tauto.
Qed.

Lemma wrap_int64_small (z : Z) :
  - 2 ^ 63 <= z < 2 ^ 63 -> wrap_int64 z = z.
Proof.
  intros Hz. unfold wrap_int64. rewrite Z.mod_small; lia.
Qed.

Lemma wrap_uint64_small (z : Z) :
  0 <= z < 2 ^ 64 -> wrap_uint64 z = z.
Proof.
  intros Hz. unfold wrap_uint64. apply Z.mod_small. exact Hz.
Qed.

Lemma clip_value_bounds (x hi : Z) :
  0 <= hi -> 0 <= clip_value x 0 hi <= hi.
Proof. intros Hhi. unfold clip_value. lia. Qed.

(** Between 0 and a bound that is not negative, clipping within a type
    whose range holds 0 converts both bounds. *)
Lemma clip_in_from_zero (mk : Z -> Integer) (mn mx z hi : Z) :
  mn <= 0 <= mx -> 0 <= hi ->
  clip_in mk mn mx z 0 hi = Ok (mk (clip_value z 0 hi)).
Proof.
  intros Hrange Hhi. unfold clip_in.
  destruct (Z.ltb_spec mx 0) as [H | _]; [lia |].
  destruct (Z.ltb_spec hi mn) as [H | _]; [lia |].
  reflexivity.
Qed.

(** [np.clip(x, 0, hi)] never raises for [hi >= 0], and clips the value. *)
Lemma np_clip_from_zero (x : Integer) (hi : Z) :
  0 <= hi ->
  exists c, np_clip x 0 hi = Ok c
            /\ int_value c = clip_value (int_value x) 0 hi.
Proof.
  intros Hhi. destruct x as [z | z | z]; unfold np_clip.
  - destruct (fits_int64 z).
    + rewrite clip_in_from_zero by lia. eexists. split; reflexivity.
    + destruct (fits_uint64 z).
      * rewrite clip_in_from_zero by lia. eexists. split; reflexivity.
      * eexists. split; reflexivity.
  - rewrite clip_in_from_zero by lia. eexists. split; reflexivity.
  - rewrite clip_in_from_zero by lia. eexists. split; reflexivity.
Qed.

Section Moved.
Import TrackerFacts.


(** From a Python [int] the clipped sum or difference is exact, whatever
    the step. *)
Lemma moved_python (op : Z -> Z -> Z) (z k hi : Z) :
  0 <= hi ->
  exists c, moved op (PyInt z) k hi = Ok c
            /\ int_value c = clip_value (op z k) 0 hi.
Proof.
  intros Hhi. unfold moved, np_binop.
  apply (np_clip_from_zero (PyInt (op z k)) Hhi).
Qed.

(** From a Python [int] or an [int64], with a step and a result within
    the range of [int64], nothing wraps and the new index is an [int64]. *)
Lemma moved_signed (op : Z -> Z -> Z) (i : Integer) (k hi : Z) :
  0 <= hi ->
  signed i ->
  - 2 ^ 63 <= k < 2 ^ 63 ->
  - 2 ^ 63 <= op (int_value i) k < 2 ^ 63 ->
  moved op i k hi = Ok (Int64 (clip_value (op (int_value i) k) 0 hi)).
Proof.
  intros Hhi Hsigned Hk Hx. unfold moved.
  destruct i as [z | z | z]; [| | contradiction]; cbn [int_value] in Hx;
    unfold np_binop.
  - unfold np_clip. rewrite (proj2 (fits_int64_iff _) Hx).
    apply clip_in_from_zero; lia.
  - rewrite (proj2 (fits_int64_iff _) Hk).
    rewrite (wrap_int64_small Hx). unfold np_clip.
    apply clip_in_from_zero; lia.
Qed.

(** With a step and a result between 0 and [2**63], nothing wraps
    whatever the type of the index. *)
Lemma moved_no_wrap (op : Z -> Z -> Z) (i : Integer) (k hi : Z) :
  0 <= hi ->
  0 <= k < 2 ^ 63 ->
  0 <= op (int_value i) k < 2 ^ 63 ->
  exists c, moved op i k hi = Ok c
            /\ int_value c = clip_value (op (int_value i) k) 0 hi.
Proof.
  intros Hhi Hk Hx. unfold moved.
  destruct i as [z | z | z]; cbn [int_value] in Hx; unfold np_binop.
  - apply (np_clip_from_zero (PyInt (op z k)) Hhi).
  - rewrite (proj2 (fits_int64_iff k)) by lia.
    rewrite wrap_int64_small by lia.
    apply (np_clip_from_zero (Int64 (op z k)) Hhi).
  - rewrite (proj2 (fits_uint64_iff k)) by lia.
    rewrite wrap_uint64_small by lia.
    apply (np_clip_from_zero (UInt64 (op z k)) Hhi).
Qed.

End Moved.

(** ** The redraw and the scroll handler *)

Ltac fields :=
  unfold TrackerFacts.redrawn, TrackerFacts.printed;
  cbn [fst snd IndexTracker.self IndexTracker.stdout IndexTracker.ax
       IndexTracker.frames IndexTracker.step IndexTracker.frame_names
       IndexTracker.img_kwargs IndexTracker.ind int_value].

Section Tracker.
Import IndexTracker TrackerFacts.

(** A redraw at an index that has a frame and a label makes exactly the
    six calls of [redraw_calls] and touches nothing else. *)
Lemma update_spec (w : World) :
  0 <= index w < N w ->
  index w < len (frame_names (self w)) ->
  exists img name,
    nth_error (frames (self w)) (Z.to_nat (index w)) = Some img
    /\ nth_error (frame_names (self w)) (Z.to_nat (index w)) = Some name
    /\ update w
       = (redrawn w (ind (self w))
            (redraw_calls img name (img_kwargs (self w))), Ok tt).
Proof.
  intros Hi Hn. unfold N, index in *.
  destruct (py_getitem_in_range (frames (self w)) Hi) as (img & Himg & Hgi).
  assert (Hn' : 0 <= int_value (ind (self w)) < len (frame_names (self w)))
    by lia.
  destruct (py_getitem_in_range (frame_names (self w)) Hn')
    as (name & Hname & Hgn).
  exists img, name. split; [exact Himg |]. split; [exact Hname |].
  unfold update, bind, ax_call, gets, lift, modify. simpl.
  rewrite Hgi. simpl. rewrite Hgn. simpl.
  unfold redrawn, redraw_calls.
  repeat rewrite <- app_assoc. reflexivity.
Qed.

(** The handler prints its line and computes the new index; if that
    raises it stops there, else it stores the index and redraws. *)
Lemma onscroll_unfold (w : World) (event : MouseEvent.t) :
  onscroll event w
  = match moved (if py_eq (MouseEvent.button event) (VStr "up")
                 then Z.add else Z.sub)
            (ind (self w)) (step (self w)) (N w - 1) with
    | Ok c =>
        update
          {| self := {| ax := ax (self w);
                        frames := frames (self w);
                        step := step (self w);
                        frame_names := frame_names (self w);
                        img_kwargs := img_kwargs (self w);
                        ind := c |};
             stdout := stdout w ++ [echo event] |}
    | Raise e => (printed w (echo event), Raise e)
    end.
Proof.
  unfold onscroll, moved, N, bind, print, gets, set_ind, modify, lift.
  simpl. fold (echo event).
  destruct (py_eq (MouseEvent.button event) (VStr "up")).
  - destruct (np_binop Z.add (ind (self w)) (step (self w))) as [x | e];
      [| reflexivity].
    destruct (np_clip x 0 (len (frames (self w)) - 1)); reflexivity.
  - destruct (np_binop Z.sub (ind (self w)) (step (self w))) as [x | e];
      [| reflexivity].
    destruct (np_clip x 0 (len (frames (self w)) - 1)); reflexivity.
Qed.

(** When the new index is computed and lies within the frames, the
    handler stores it and redraws there. *)
Lemma onscroll_moved (w : World) (event : MouseEvent.t) (c : Integer) :
  labelled w ->
  moved (if py_eq (MouseEvent.button event) (VStr "up")
         then Z.add else Z.sub)
    (ind (self w)) (step (self w)) (N w - 1) = Ok c ->
  0 <= int_value c <= N w - 1 ->
  exists img name,
    nth_error (frames (self w)) (Z.to_nat (int_value c)) = Some img
    /\ nth_error (frame_names (self w)) (Z.to_nat (int_value c)) = Some name
    /\ onscroll event w
       = (redrawn (printed w (echo event)) c
            (redraw_calls img name (img_kwargs (self w))), Ok tt).
Proof.
  intros [Hne Hlen] Hmoved Hrange.
  rewrite onscroll_unfold, Hmoved.
  match goal with
  | |- context [update ?w0] => set (w1 := w0)
  end.
  assert (Hi1 : 0 <= index w1 < N w1).
  { unfold index, N, w1 in *. fields. lia. }
  assert (Hn1 : index w1 < len (frame_names (self w1))).
  { unfold index, N, len, w1 in *. fields. lia. }
  destruct (update_spec w1 Hi1 Hn1) as (img & name & Himg & Hname & Hupd).
  exists img, name. split; [exact Himg |]. split; [exact Hname |].
  rewrite Hupd. reflexivity.
Qed.

(** The handler on a scroller whose arithmetic stays within 64 bits: it
    prints its line, moves the index as the specification says, and
    redraws at the new index. *)
Lemma onscroll_spec (w : World) (event : MouseEvent.t) :
  labelled w ->
  within_int64 w ->
  let i := spec_scroll (N w) (step (self w)) (index w) (direction event) in
  exists img name,
    nth_error (frames (self w)) (Z.to_nat i) = Some img
    /\ nth_error (frame_names (self w)) (Z.to_nat i) = Some name
    /\ onscroll event w
       = (redrawn (printed w (echo event)) (Int64 i)
            (redraw_calls img name (img_kwargs (self w))), Ok tt).
Proof.
  intros Hw (Hi & Hsigned & Hstep) i.
  pose proof (len_pos (proj1 Hw)) as Hpos. fold (N w) in Hpos.
  assert (Hmoved :
            moved (if py_eq (MouseEvent.button event) (VStr "up")
                   then Z.add else Z.sub)
              (ind (self w)) (step (self w)) (N w - 1) = Ok (Int64 i)).
  { unfold i, spec_scroll, direction, index in *.
    destruct (py_eq (MouseEvent.button event) (VStr "up"));
      rewrite moved_signed by (try assumption; lia);
      rewrite clip_value_is_clamp by lia; reflexivity. }
  assert (Hrange : 0 <= int_value (Int64 i) <= N w - 1).
  { unfold i, spec_scroll. cbn [int_value].
    destruct (direction event); apply clamp_bounds; lia. }
  exact (onscroll_moved event Hw Hmoved Hrange).
Qed.


End Tracker.

Section TrackerClaims.
Import IndexTracker TrackerFacts.


(** What is printed never reaches the object: a redraw yields the same
    object and the same outcome whatever the standard output holds, and
    leaves the output alone. *)
Lemma update_ignores_stdout (s : t) (out out' : list string) :
  self (fst (update {| self := s; stdout := out |}))
  = self (fst (update {| self := s; stdout := out' |}))
  /\ snd (update {| self := s; stdout := out |})
     = snd (update {| self := s; stdout := out' |})
  /\ stdout (fst (update {| self := s; stdout := out |})) = out.
Proof.
  unfold update, bind, ax_call, gets, lift, modify. simpl.
  destruct (py_getitem (frames s) (int_value (ind s))); simpl;
    [| repeat split; reflexivity].
  destruct (py_getitem (frame_names s) (int_value (ind s))); simpl;
    repeat split; reflexivity.
Qed.

(** The magnitude that an event carries reaches the printed line and
    nothing else. *)
Lemma onscroll_ignores_magnitude (w : World) (button : PyVal) (m1 m2 : Z) :
  self (fst (onscroll {| MouseEvent.button := button;
                         MouseEvent.step := m1 |} w))
  = self (fst (onscroll {| MouseEvent.button := button;
                           MouseEvent.step := m2 |} w))
  /\ snd (onscroll {| MouseEvent.button := button;
                      MouseEvent.step := m1 |} w)
     = snd (onscroll {| MouseEvent.button := button;
                        MouseEvent.step := m2 |} w)
  /\ stdout (fst (onscroll {| MouseEvent.button := button;
                              MouseEvent.step := m1 |} w))
     = stdout w ++ [String.append (percent_s button)
                      (String.append " " (str_int m1))].
Proof.
  rewrite !onscroll_unfold. cbn [MouseEvent.button].
  destruct (moved (if py_eq button (VStr "up") then Z.add else Z.sub)
              (ind (self w)) (step (self w)) (N w - 1)) as [c | e].
  - match goal with
    | |- context [update {| self := ?s0; stdout := _ |}] => set (s := s0)
    end.
    destruct (update_ignores_stdout s
                (stdout w ++ [echo {| MouseEvent.button := button;
                                      MouseEvent.step := m1 |}])
                (stdout w ++ [echo {| MouseEvent.button := button;
                                      MouseEvent.step := m2 |}]))
      as (Hself & Hsnd & Hout).
    split; [exact Hself |]. split; [exact Hsnd |]. exact Hout.
  - repeat split; reflexivity.
Qed.

Lemma onscroll_keeps_contract (w : World) (event : MouseEvent.t) :
  labelled w ->
  within_int64 w ->
  labelled (fst (onscroll event w))
  /\ within_int64 (fst (onscroll event w))
  /\ N (fst (onscroll event w)) = N w
  /\ step (self (fst (onscroll event w))) = step (self w).
Proof.
  intros Hw Hin.
  destruct (onscroll_spec event Hw Hin) as (img & name & _ & _ & Heq).
  rewrite Heq. unfold labelled, within_int64, N, index in *. fields.
  destruct Hw as [Hne Hlen]. destruct Hin as (Hi & _ & Hstep).
  pose proof (len_pos Hne) as Hpos.
  split; [split; assumption |]. split; [| split; reflexivity].
  split; [| split; [exact I | exact Hstep]].
  unfold spec_scroll. destruct (direction event); apply clamp_bounds; lia.
Qed.

(** The run of a labelled scroller whose arithmetic stays within 64 bits
    follows the specification's index sequence, stays in range and never
    raises. *)
Lemma scroll_run_spec (w : World) (events : list MouseEvent.t) :
  labelled w ->
  within_int64 w ->
  indices (scroll_run w events)
  = spec_indices (N w) (step (self w)) (index w) (map direction events)
  /\ Forall (fun i => 0 <= i <= N w - 1) (indices (scroll_run w events))
  /\ Forall (fun o => snd o = Ok tt) (scroll_run w events).
Proof.
  revert w. induction events as [| e events' IH]; intros w Hw Hin.
  - repeat split; constructor.
  - destruct (onscroll_keeps_contract e Hw Hin) as (Hw' & Hin' & HN & Hstep).
    destruct (IH _ Hw' Hin') as (Hidx & Hrange & Hok).
    destruct (onscroll_spec e Hw Hin) as (img & name & _ & _ & Heq).
    assert (Hind : index (fst (onscroll e w))
                   = spec_scroll (N w) (step (self w)) (index w)
                       (direction e))
      by (rewrite Heq; reflexivity).
    assert (Hres : snd (onscroll e w) = Ok tt) by (rewrite Heq; reflexivity).
    rewrite HN, Hstep, Hind in Hidx. rewrite HN in Hrange.
    cbn [scroll_run map]. unfold indices in *. cbn [map].
    split; [rewrite Hind, Hidx; reflexivity |].
    split; constructor; try assumption.
    rewrite Hind. destruct Hw as [Hne _]. pose proof (len_pos Hne).
    unfold spec_scroll, N. destruct (direction e); apply clamp_bounds; lia.
Qed.


(** With a step between 0 and [2**63] and a sum or difference between 0
    and [2**63], an event moves the index as the specification says
    whatever the type that holds it, and leaves the scroller labelled. *)
Lemma onscroll_no_wrap (w : World) (event : MouseEvent.t) :
  labelled w ->
  0 <= step (self w) < 2 ^ 63 ->
  0 <= match direction event with
       | Increase => index w + step (self w)
       | Decrease => index w - step (self w)
       end < 2 ^ 63 ->
  index (fst (onscroll event w))
  = spec_scroll (N w) (step (self w)) (index w) (direction event)
  /\ labelled (fst (onscroll event w))
  /\ N (fst (onscroll event w)) = N w
  /\ step (self (fst (onscroll event w))) = step (self w).
Proof.
  intros Hw Hstep Hx.
  pose proof (len_pos (proj1 Hw)) as Hpos. fold (N w) in Hpos.
  assert (Hmoved : exists c,
             moved (if py_eq (MouseEvent.button event) (VStr "up")
                    then Z.add else Z.sub)
               (ind (self w)) (step (self w)) (N w - 1) = Ok c
             /\ int_value c
                = spec_scroll (N w) (step (self w)) (index w)
                    (direction event)).
  { unfold spec_scroll, direction, index in *.
    destruct (py_eq (MouseEvent.button event) (VStr "up")).
    - destruct (@moved_no_wrap Z.add (ind (self w)) (step (self w))
                  (N w - 1) ltac:(lia) Hstep Hx) as (c & Hc & Hv).
      exists c. split; [exact Hc |]. rewrite Hv.
      apply clip_value_is_clamp. lia.
    - destruct (@moved_no_wrap Z.sub (ind (self w)) (step (self w))
                  (N w - 1) ltac:(lia) Hstep Hx) as (c & Hc & Hv).
      exists c. split; [exact Hc |]. rewrite Hv.
      apply clip_value_is_clamp. lia. }
  destruct Hmoved as (c & Hc & Hv).
  assert (Hrange : 0 <= int_value c <= N w - 1).
  { rewrite Hv. unfold spec_scroll.
    destruct (direction event); apply clamp_bounds; lia. }
  destruct (onscroll_moved event Hw Hc Hrange)
    as (img & name & _ & _ & Heq).
  rewrite Heq. unfold labelled, N, index in *. fields.
  destruct Hw as [Hne Hlen].
  split; [exact Hv |]. split; [split; assumption |].
  split; reflexivity.
Qed.

(** The bound [2**63 - N] on the step is the largest that keeps the
    arithmetic of the index within 64 bits: on the five frames with
    [scroll_step = 2**63 - 4], two ['up'] events leave indices 4 and then
    0, the second sum, [2**63], having wrapped around as an [int64]. *)
Lemma step_bound_is_tight :
  indices (scroll_run
             (fst (__init__ [] Scenario.frames5 Scenario.names5
                     (2 ^ 63 - 4) [] []))
             [Scenario.scroll "up" 1; Scenario.scroll "up" 1])
  = [4; 0]
  /\ spec_indices 5 (2 ^ 63 - 4) 2 [Increase; Increase] = [4; 4].
Proof.
  split; vm_compute; reflexivity.
Qed.




(** C5. Constructed on at least one frame, with a label for each, the
    scroller shows index [len(frames) // 2]; construction made exactly
    one redraw, of that frame, on the axes it was given, and nothing was
    printed, no scroll event having been handled. *)
Theorem init_shows_middle_frame
    (ax0 : list AxCall) (frames0 : list ndarray2)
    (frame_names0 : list string) (scroll_step : Z) (kwargs : Kwargs)
    (out : list string) :
  frames0 <> [] ->
  (List.length frames0 <= List.length frame_names0)%nat ->
  exists img name,
    nth_error frames0 (Z.to_nat (len frames0 / 2)) = Some img
    /\ nth_error frame_names0 (Z.to_nat (len frames0 / 2)) = Some name
    /\ __init__ ax0 frames0 frame_names0 scroll_step kwargs out
       = ({| self := {| ax := ax0 ++ redraw_calls img name kwargs;
                        frames := frames0;
                        step := scroll_step;
                        frame_names := frame_names0;
                        img_kwargs := kwargs;
                        ind := PyInt (len frames0 / 2) |};
             stdout := out |}, Ok tt).
Proof.
  intros Hne Hlen. pose proof (len_pos Hne) as Hpos.
  assert (Hmid : 0 <= len frames0 / 2 < len frames0).
  { split; [apply Z.div_pos; lia | apply Z.div_lt; lia]. }
  set (w := {| self := {| ax := ax0;
                          frames := frames0;
                          step := scroll_step;
                          frame_names := frame_names0;
                          img_kwargs := kwargs;
                          ind := PyInt (len frames0 / 2) |};
               stdout := out |}).
  assert (Hi : 0 <= index w < N w) by exact Hmid.
  assert (Hn : index w < len (frame_names (self w))).
  { unfold index, w. fields. unfold len in *. lia. }
  destruct (update_spec w Hi Hn) as (img & name & Himg & Hname & Hupd).
  exists img, name. split; [exact Himg |]. split; [exact Hname |].
  unfold __init__. fold w. rewrite Hupd. reflexivity.
Qed.

Lemma init_shows_middle_frame_witness :
  index Scenario.scroller = 2
  /\ List.length (ax (self Scenario.scroller)) = 6%nat
  /\ stdout Scenario.scroller = [].
Proof.
  assert (Hne : Scenario.frames5 <> []) by discriminate.
  assert (Hlen : (List.length Scenario.frames5
                  <= List.length Scenario.names5)%nat) by (simpl; lia).
  destruct (@init_shows_middle_frame [] Scenario.frames5 Scenario.names5
              1 [] [] Hne Hlen)
    as (img & name & _ & _ & Heq).
  unfold Scenario.scroller. rewrite Heq.
  repeat split; reflexivity.
Defined.






(** C3, as the claim has it, fails on the scenario of the specification:
    built with the default step, the scroller answers the three events
    with indices 3, 4 and 3, the last one being one below 4 and not the
    clamp of 4 - 10; and no step given to the constructor makes the three
    events yield 3, 4 and 0. *)
Lemma event_magnitude_is_not_applied :
  index Scenario.scroller = 2
  /\ indices (scroll_run Scenario.scroller Scenario.events) = [3; 4; 3]
  /\ nth 2 (indices (scroll_run Scenario.scroller Scenario.events)) 0
     <> clamp (4 - 10) 0 (5 - 1)
  /\ ~ (exists scroll_step,
          indices (scroll_run
                     (fst (__init__ [] Scenario.frames5 Scenario.names5
                             scroll_step [] []))
                     Scenario.events)
          = [3; 4; 0]).
Proof.
  split; [reflexivity |]. split; [vm_compute; reflexivity |].
  split; [vm_compute; discriminate |].
  intros [s Hs].
  set (w := fst (__init__ [] Scenario.frames5 Scenario.names5 s [] []))
    in Hs.
  assert (Hw : labelled w) by (split; [discriminate | simpl; lia]).
  assert (Hfirst : index (fst (onscroll (Scenario.scroll "up" 1) w)) = 3).
  { exact (f_equal (fun l => nth 0 l 0) Hs). }
  assert (HN : N w = 5) by reflexivity.
  assert (Hind : ind (self w) = PyInt 2) by reflexivity.
  assert (Hst : step (self w) = s) by reflexivity.
  destruct (@moved_python Z.add 2 s 4 ltac:(lia)) as (c & Hc & Hv).
  assert (Hrange : 0 <= int_value c <= N w - 1).
  { rewrite Hv, HN. apply clip_value_bounds. lia. }
  assert (Hmoved : moved
                     (if py_eq (MouseEvent.button (Scenario.scroll "up" 1))
                               (VStr "up")
                      then Z.add else Z.sub)
                     (ind (self w)) (step (self w)) (N w - 1) = Ok c).
  { rewrite HN, Hind, Hst. exact Hc. }
  destruct (@onscroll_moved w (Scenario.scroll "up" 1) c Hw Hmoved Hrange)
    as (img & name & _ & _ & Heq).
  rewrite Heq in Hfirst.
  unfold index, redrawn, printed in Hfirst.
  cbn [fst self ind int_value] in Hfirst.
  rewrite Hv in Hfirst. unfold clip_value in Hfirst.
  assert (Hone : s = 1) by lia.
  clear - Hs Hone. subst w. rewrite Hone in Hs.
  vm_compute in Hs. discriminate.
Qed.

(** C3, amended. The handler takes the direction from the event and the
    step from the object: two events of the same button, whatever
    magnitudes they carry, leave the same object and the same outcome,
    and the magnitude only shows in the printed line; while the
    arithmetic stays within 64 bits the outcome is a success and the
    index the clamp of index + step or index - step for the step given to
    the constructor. With 5 frames and the default step the scenario
    yields 3, 4 and 3. *)
Theorem scroll_step_is_fixed_at_construction
    (w : World) (button : PyVal) (m1 m2 : Z) :
  labelled w ->
  self (fst (onscroll {| MouseEvent.button := button;
                         MouseEvent.step := m1 |} w))
  = self (fst (onscroll {| MouseEvent.button := button;
                           MouseEvent.step := m2 |} w))
  /\ snd (onscroll {| MouseEvent.button := button;
                      MouseEvent.step := m1 |} w)
     = snd (onscroll {| MouseEvent.button := button;
                        MouseEvent.step := m2 |} w)
  /\ stdout (fst (onscroll {| MouseEvent.button := button;
                              MouseEvent.step := m1 |} w))
     = stdout w ++ [String.append (percent_s button)
                      (String.append " " (str_int m1))]
  /\ (within_int64 w ->
      snd (onscroll {| MouseEvent.button := button;
                       MouseEvent.step := m1 |} w) = Ok tt
      /\ snd (onscroll {| MouseEvent.button := button;
                          MouseEvent.step := m2 |} w) = Ok tt
      /\ index (fst (onscroll {| MouseEvent.button := button;
                                 MouseEvent.step := m1 |} w))
         = spec_scroll (N w) (step (self w)) (index w)
             (if py_eq button (VStr "up") then Increase else Decrease))
  /\ indices (scroll_run Scenario.scroller Scenario.events) = [3; 4; 3].
Proof.
  intros Hw.
  destruct (onscroll_ignores_magnitude w button m1 m2)
    as (Hself & Hsnd & Hout).
  split; [exact Hself |]. split; [exact Hsnd |]. split; [exact Hout |].
  split; [| vm_compute; reflexivity].
  intros Hin.
  destruct (onscroll_spec {| MouseEvent.button := button;
                             MouseEvent.step := m1 |} Hw Hin)
    as (img1 & name1 & _ & _ & Heq1).
  destruct (onscroll_spec {| MouseEvent.button := button;
                             MouseEvent.step := m2 |} Hw Hin)
    as (img2 & name2 & _ & _ & Heq2).
  rewrite Heq1, Heq2. repeat split; reflexivity.
Qed.

Lemma scroll_step_is_fixed_at_construction_witness :
  self (fst (onscroll (Scenario.scroll "down" 1) Scenario.scroller))
  = self (fst (onscroll (Scenario.scroll "down" 10) Scenario.scroller)).
Proof.
  assert (Hw : labelled Scenario.scroller).
  { split; [discriminate | simpl; lia]. }
  exact (proj1 (@scroll_step_is_fixed_at_construction Scenario.scroller
                  (VStr "down") 1 10 Hw)).
Defined.

(** C6, as the claim has it, fails over a single frame: at the only
    index, 0 = N - 1, an increase followed by a decrease by 1 leaves
    index 0, which is N - 1 and not N - 2. *)
Lemma single_frame_round_trip_stays :
  N Scenario.single = 1
  /\ index Scenario.single = N Scenario.single - 1
  /\ step (self Scenario.single) = 1
  /\ indices (scroll_run Scenario.single
                [Scenario.scroll "up" 1; Scenario.scroll "down" 1])
     = [0; 0]
  /\ nth 1 (indices (scroll_run Scenario.single
                       [Scenario.scroll "up" 1; Scenario.scroll "down" 1]))
       0
     <> N Scenario.single - 2.
Proof.
  repeat split; try (vm_compute; reflexivity). vm_compute. discriminate.
Qed.

(** C6, amended. On a scroller showing index i of N frames (N below
    [2**63], as the length of any Python sequence) with a step s >= 0, an
    increase followed by a decrease returns to i whenever i + s <= N - 1;
    with N >= 2, at i = N - 1 and s = 1, it leads to N - 1 and then to
    N - 2. *)
Theorem scroll_round_trip (w : World) (up down : MouseEvent.t) :
  labelled w ->
  direction up = Increase ->
  direction down = Decrease ->
  0 <= index w <= N w - 1 ->
  0 <= step (self w) ->
  N w < 2 ^ 63 ->
  (index w + step (self w) <= N w - 1 ->
   indices (scroll_run w [up; down])
   = [index w + step (self w); index w])
  /\ (2 <= N w -> index w = N w - 1 -> step (self w) = 1 ->
      indices (scroll_run w [up; down]) = [N w - 1; N w - 2]).
Proof.
  intros Hw Hup Hdown Hi Hs HN.
  assert (Hrun : forall i1 i2,
             0 <= step (self w) < 2 ^ 63 ->
             0 <= index w + step (self w) < 2 ^ 63 ->
             i1 = clamp (index w + step (self w)) 0 (N w - 1) ->
             0 <= i1 - step (self w) < 2 ^ 63 ->
             i2 = clamp (i1 - step (self w)) 0 (N w - 1) ->
             indices (scroll_run w [up; down]) = [i1; i2]).
  { intros i1 i2 Hstep Hx1 Hi1 Hx2 Hi2.
    assert (Hx1' : 0 <= match direction up with
                        | Increase => index w + step (self w)
                        | Decrease => index w - step (self w)
                        end < 2 ^ 63) by (rewrite Hup; exact Hx1).
    destruct (onscroll_no_wrap up Hw Hstep Hx1')
      as (Hind1 & Hw1 & HN1 & Hstep1).
    rewrite Hup in Hind1. cbn [spec_scroll] in Hind1.
    assert (Hstep' : 0 <= step (self (fst (onscroll up w))) < 2 ^ 63)
      by (rewrite Hstep1; exact Hstep).
    assert (Hx2' : 0 <= match direction down with
                        | Increase =>
                            index (fst (onscroll up w))
                            + step (self (fst (onscroll up w)))
                        | Decrease =>
                            index (fst (onscroll up w))
                            - step (self (fst (onscroll up w)))
                        end < 2 ^ 63).
    { rewrite Hdown, Hind1, Hstep1, <- Hi1. exact Hx2. }
    destruct (onscroll_no_wrap down Hw1 Hstep' Hx2') as (Hind2 & _).
    rewrite Hdown in Hind2. cbn [spec_scroll] in Hind2.
    rewrite HN1, Hstep1, Hind1, <- Hi1, <- Hi2 in Hind2.
    unfold indices. cbn [scroll_run map].
    rewrite Hind2, Hind1, <- Hi1. reflexivity. }
  split.
  - intros Hfit.
    apply Hrun; try lia.
    + rewrite clamp_inside by lia. reflexivity.
    + rewrite clamp_inside by lia. lia.
  - intros H2 Htop Hone.
    apply Hrun; try lia.
    + rewrite Htop, Hone.
      destruct (@clamp_cases (N w - 1 + 1) 0 (N w - 1) ltac:(lia))
        as [[? ?] | [[? ?] | [? ?]]]; lia.
    + rewrite Hone, clamp_inside by lia. lia.
Qed.

Lemma scroll_round_trip_witness :
  indices (scroll_run Scenario.scroller
             [Scenario.scroll "up" 3; Scenario.scroll "down" 3])
  = [3; 2].
Proof.
  assert (Hw : labelled Scenario.scroller).
  { split; [discriminate | simpl; lia]. }
  assert (Hi : 0 <= index Scenario.scroller <= N Scenario.scroller - 1).
  { vm_compute. split; discriminate. }
  assert (Hs : 0 <= step (self Scenario.scroller)).
  { vm_compute. discriminate. }
  assert (HN : N Scenario.scroller < 2 ^ 63).
  { vm_compute. reflexivity. }
  assert (Hfit : index Scenario.scroller + step (self Scenario.scroller)
                 <= N Scenario.scroller - 1).
  { vm_compute. discriminate. }
  exact (proj1 (@scroll_round_trip Scenario.scroller
                  (Scenario.scroll "up" 3) (Scenario.scroll "down" 3)
                  Hw eq_refl eq_refl Hi Hs HN) Hfit).
Defined.

End TrackerClaims.

(** ** The plotting functions *)

Section Loops.
Variables (A C : Type).

(** A loop whose rounds all succeed, each appending its calls. *)
Lemma for_enumerate_ok (body : nat -> A -> M (list C) unit)
    (calls : nat -> A -> list C) (l : list A) :
  forall (i : nat) (tr : list C),
    (forall k x tr', nth_error l k = Some x ->
       body (i + k)%nat x tr' = (tr' ++ calls (i + k)%nat x, Ok tt)) ->
    for_enumerate body i l tr = (tr ++ enum_calls calls i l, Ok tt).
Proof.
  induction l as [| x l' IH]; intros i tr Hbody.
  - simpl. unfold ret. rewrite app_nil_r. reflexivity.
  - simpl. unfold bind.
    pose proof (Hbody 0%nat x tr eq_refl) as H0.
    rewrite Nat.add_0_r in H0. rewrite H0.
    rewrite IH.
    + rewrite <- app_assoc. reflexivity.
    + intros k y tr' Hk.
      replace (S i + k)%nat with (i + S k)%nat by lia.
      apply Hbody. exact Hk.
Qed.

(** Whatever its rounds do, a loop only appends calls, and appends only
    calls of a kind [P] when that is all its rounds append. *)
Lemma for_enumerate_appends (P : C -> Prop)
    (body : nat -> A -> M (list C) unit) (l : list A) :
  (forall i x tr, exists calls,
      fst (body i x tr) = tr ++ calls /\ Forall P calls) ->
  forall (i : nat) (tr : list C),
  exists calls,
    fst (for_enumerate body i l tr) = tr ++ calls /\ Forall P calls.
Proof.
  intros Hbody. induction l as [| x l' IH]; intros i tr.
  - exists []. simpl. rewrite app_nil_r. split; [reflexivity | constructor].
  - simpl. unfold bind.
    destruct (Hbody i x tr) as (calls1 & Heq1 & HP1).
    destruct (body i x tr) as [tr1 [[] | e]]; simpl in Heq1; subst tr1.
    + destruct (IH (S i) (tr ++ calls1)) as (calls2 & Heq2 & HP2).
      exists (calls1 ++ calls2). rewrite Heq2, app_assoc.
      split; [reflexivity | apply Forall_app; split; assumption].
    + exists calls1. split; [reflexivity | exact HP1].
Qed.

End Loops.


Lemma saved_app (tr tr' : list PltCall) :
  saved (tr ++ tr') = saved tr ++ saved tr'.
Proof. unfold saved. apply flat_map_app. Qed.

Lemma saved_none (calls : list PltCall) :
  Forall (fun c => forall path, c <> Savefig path) calls -> saved calls = [].
Proof.
  induction 1 as [| c calls Hc _ IH]; [reflexivity |].
  unfold saved in *. simpl. rewrite IH.
  destruct c; try reflexivity. exfalso. eapply Hc. reflexivity.
Qed.

(** The normalisation of [arrs] on a bare 2-D array and on the sequence
    that holds only it. *)
Lemma wrap_single_Arr (a : ndarray2) : wrap_single (Arr a) = Ok [Arr a].
Proof. reflexivity. Qed.

Lemma wrap_single_singleton (a : ndarray2) :
  wrap_single (Tup [Arr a]) = Ok [Arr a].
Proof. reflexivity. Qed.

(** C7. Given a bare 2-D array, [seismic_plot] makes the same calls and
    ends in the same way as given the one-element sequence holding that
    array, whatever the other arguments and whatever was drawn before: in
    both cases [arrs] is normalised to that one-element sequence. *)
Theorem seismic_plot_bare_array_is_singleton
    (a : ndarray2) (names : option Names) (figsize : option (float * float))
    (save_to : option string) (kwargs : Kwargs) (tr : list PltCall) :
  wrap_single (Arr a) = Ok [Arr a]
  /\ wrap_single (Tup [Arr a]) = Ok [Arr a]
  /\ seismic_plot (Arr a) names figsize save_to kwargs tr
     = seismic_plot (Tup [Arr a]) names figsize save_to kwargs tr.
Proof.
  split; [apply wrap_single_Arr |]. split; [apply wrap_single_singleton |].
  unfold seismic_plot, bind, lift.
  rewrite wrap_single_Arr, wrap_single_singleton. reflexivity.
Qed.

(** C8. [seismic_plot] leaves [save_to] unread: two calls that differ only
    in [save_to] make the same calls and end in the same way, and the calls
    made hold no [savefig], whatever the input and whether or not the call
    raises. *)
Theorem seismic_plot_never_saves
    (arrs : PyArr) (names : option Names) (figsize : option (float * float))
    (save_to save_to' : option string) (kwargs : Kwargs)
    (tr : list PltCall) :
  seismic_plot arrs names figsize save_to kwargs tr
  = seismic_plot arrs names figsize save_to' kwargs tr
  /\ exists calls,
       fst (seismic_plot arrs names figsize save_to kwargs tr) = tr ++ calls
       /\ Forall (fun c => forall path, c <> Savefig path) calls
       /\ saved calls = [].
Proof.
  split; [reflexivity |].
  assert (H : exists calls,
             fst (seismic_plot arrs names figsize save_to kwargs tr)
             = tr ++ calls
             /\ Forall (fun c => forall path, c <> Savefig path) calls).
  { unfold seismic_plot, bind, lift.
    destruct (wrap_single arrs) as [items | e].
    - unfold subplots, bind, emit, modify, lift, ret. simpl.
      match goal with
      | |- context [for_enumerate ?b _ _] => set (body := b)
      end.
      assert (Hbody : forall i x tr0, exists calls,
                 fst (body i x tr0) = tr0 ++ calls
                 /\ Forall (fun c => forall path, c <> Savefig path) calls).
      { intros i x tr0. unfold body, bind, emit, modify, lift, ret.
        destruct x as [a0 | l0]; simpl.
        - destruct (wrap_names names) as [l |]; simpl.
          + destruct (py_getitem l (Z.of_nat i)) as [title | e]; simpl.
            * eexists. rewrite <- !app_assoc. split; [reflexivity |].
              repeat constructor; discriminate.
            * eexists. split; [reflexivity |].
              repeat constructor; discriminate.
          + eexists. rewrite <- !app_assoc. split; [reflexivity |].
            repeat constructor; discriminate.
        - exists []. rewrite app_nil_r. split; [reflexivity | constructor]. }
      destruct (List.length items =? 0)%nat; simpl.
      + eexists. split; [reflexivity |]. repeat constructor; discriminate.
      + destruct (@for_enumerate_appends _ _ _ body items Hbody 0%nat
                    (tr ++ [Subplots 1 (List.length items) figsize false]))
          as (calls & Heq & HP).
        destruct (for_enumerate body 0%nat items
                    (tr ++ [Subplots 1 (List.length items) figsize false]))
          as [tr1 [[] | e]]; simpl in Heq; subst tr1; simpl.
        * exists ([Subplots 1 (List.length items) figsize false]
                  ++ calls ++ [Show]).
          rewrite <- !app_assoc. split; [reflexivity |].
          apply Forall_app. split; [repeat constructor; discriminate |].
          apply Forall_app. split; [exact HP |].
          repeat constructor; discriminate.
        * exists ([Subplots 1 (List.length items) figsize false] ++ calls).
          rewrite <- !app_assoc. split; [reflexivity |].
          apply Forall_app. split; [repeat constructor; discriminate |].
          exact HP.
    - exists []. simpl. rewrite app_nil_r. split; [reflexivity | constructor]. }
  destruct H as (calls & Heq & HP).
  exists calls. split; [exact Heq |]. split; [exact HP |].
  apply saved_none. exact HP.
Qed.

(** ** Steps of the effect monad *)

Section MonadSteps.
Variables (S A B : Type).

Lemma bind_lift_Ok (x : A) (k : A -> M S B) (s : S) :
  bind (lift (Ok x)) k s = k x s.
Proof. reflexivity. Qed.

Lemma bind_lift_Raise (e : Exc) (k : A -> M S B) (s : S) :
  bind (lift (Raise e)) k s = (s, Raise e).
Proof. reflexivity. Qed.

Lemma bind_ret (x : A) (k : A -> M S B) (s : S) :
  bind (ret x) k s = k x s.
Proof. reflexivity. Qed.

End MonadSteps.

Lemma bind_emit (B : Type) (c : PltCall) (k : unit -> Plt B)
    (tr : list PltCall) :
  bind (emit c) k tr = k tt (tr ++ [c]).
Proof. reflexivity. Qed.

(** ** Boolean masks *)

Lemma mask_selects (P : float -> bool) (xs : list float) :
  map fst (filter snd (combine xs (map P xs))) = filter P xs.
Proof.
  induction xs as [| x xs' IH]; [reflexivity |].
  simpl. destruct (P x); simpl; rewrite IH; reflexivity.
Qed.

Lemma mask_selects_paired (P : float -> bool) (xs : list float) :
  forall ys : list float,
    List.length xs = List.length ys ->
    filter P xs = map fst (filter (fun p => P (fst p)) (combine xs ys))
    /\ map fst (filter snd (combine ys (map P xs)))
       = map snd (filter (fun p => P (fst p)) (combine xs ys)).
Proof.
  induction xs as [| x xs' IH]; intros [| y ys'] Hlen;
    try discriminate; [split; reflexivity |].
  injection Hlen as Hlen. destruct (IH ys' Hlen) as [IH1 IH2].
  simpl. destruct (P x); simpl; rewrite IH1, IH2; split; reflexivity.
Qed.

Lemma np_getitem_mask (P : float -> bool) (xs ys : list float) :
  List.length xs = List.length ys ->
  np_getitem ys (BoolMask (map P xs))
  = Ok (map fst (filter snd (combine ys (map P xs)))).
Proof.
  intros Hlen. unfold np_getitem.
  rewrite length_map, Hlen, Nat.eqb_refl. reflexivity.
Qed.

Lemma label_of_covered (names : option (list string)) (n i : nat) :
  match names with
  | Some l => (n <= List.length l)%nat
  | None => True
  end ->
  (i < n)%nat ->
  exists s, label_of names i = Ok s.
Proof.
  intros Hcov Hi. destruct names as [l |]; simpl.
  - assert (Hr : 0 <= Z.of_nat i < len l) by (unfold len; lia).
    destruct (py_getitem_in_range l Hr) as (s & _ & Hs).
    exists s. exact Hs.
  - exists "". reflexivity.
Qed.

(** ** [spectrum_plot] on well-formed input *)

Lemma bind_assoc (S A B C : Type) (c : M S A) (f : A -> M S B)
    (k : B -> M S C) (s : S) :
  bind (bind c f) k s = bind c (fun x => bind (f x) k) s.
Proof.
  unfold bind. destruct (c s) as [s' [a | e]]; reflexivity.
Qed.

Lemma rfftfreq_ok (n : nat) (d : float) :
  (float_of_nat n * d =? 0)%float = false -> rfftfreq n d = Ok (bins n d).
Proof.
  intros Hnz. unfold rfftfreq, bins. cbv zeta. rewrite Hnz. reflexivity.
Qed.

Lemma length_bins (n : nat) (d : float) : List.length (bins n d) = n_bins n.
Proof. unfold bins. rewrite length_map, length_seq. reflexivity. Qed.

Lemma length_mean_axis0 (np_mean : list float -> float) (spec : list (list float))
    (ncols : nat) :
  List.length (mean_axis0 np_mean spec ncols) = ncols.
Proof. unfold mean_axis0. rewrite length_map, length_seq. reflexivity. Qed.

Ltac plt_step :=
  cbv beta iota;
  repeat (first [rewrite bind_emit | rewrite bind_lift_Ok | rewrite bind_ret];
          cbv beta iota).

Section SpectrumOk.

Variable rfft_power : list float -> nat -> float.
Variable np_mean : list float -> float.


(** On a sequence of arrays whose regions of interest are not empty, with
    [timestep] bound to a value [d] whose product with the number of
    samples is not zero, a bound [m] on the frequency and labels for all
    columns, [spectrum_plot] makes the calls of each column in turn, saves
    if asked to, and shows the figure. *)
Lemma spectrum_plot_ok (d m : float) (frame : slice * slice) (arrs : PyArr)
    (rate : float) (names : option Names) (figsize : option (float * float))
    (save_to : option string) (kwargs : Kwargs) (tr : list PltCall)
    (l : list ndarray2) :
  wrap_single arrs = Ok (map Arr l) ->
  l <> [] ->
  labels_cover names (List.length l) ->
  Forall (fun a => shape0 (getitem2 a frame) <> 0%nat
                   /\ shape1 (getitem2 a frame) <> 0%nat
                   /\ (float_of_nat (shape1 (getitem2 a frame)) * d
                       =? 0)%float = false) l ->
  spectrum_plot rfft_power np_mean (Some d) frame arrs rate (Some m)
    names figsize save_to kwargs tr
  = (tr ++ [Subplots 2 (List.length l) figsize false]
        ++ enum_calls (column_calls rfft_power np_mean d m frame
                         (wrap_names names) kwargs) 0 (map Arr l)
        ++ match save_to with
           | Some path => [Savefig path]
           | None => []
           end
        ++ [Show],
     Ok tt).
Proof.
  intros Hwrap Hne Hcov Hblocks.
  unfold spectrum_plot. rewrite Hwrap, bind_lift_Ok. cbv zeta.
  unfold subplots. rewrite bind_assoc, bind_emit. cbv beta.
  rewrite length_map.
  assert (Hlen : (List.length l =? 0)%nat = false).
  { destruct l; [congruence | reflexivity]. }
  rewrite Hlen, bind_ret.
  match goal with
  | |- context [for_enumerate ?b _ _] => set (body := b)
  end.
  assert (Hbody : forall k x tr', nth_error (map Arr l) k = Some x ->
             body (0 + k)%nat x tr'
             = (tr' ++ column_calls rfft_power np_mean d m frame
                         (wrap_names names) kwargs (0 + k)%nat x, Ok tt)).
  { intros k x tr' Hk. rewrite Nat.add_0_l.
    rewrite nth_error_map in Hk.
    destruct (nth_error l k) as [a |] eqn:Hnth; [| discriminate].
    injection Hk as <-.
    assert (Hin : In a l) by (eapply nth_error_In; exact Hnth).
    assert (Hklt : (k < List.length l)%nat)
      by (apply nth_error_Some; congruence).
    rewrite Forall_forall in Hblocks.
    destruct (Hblocks a Hin) as (Hrows & Hcols & Hnz).
    destruct (label_of_covered (wrap_names names) Hcov Hklt)
      as (label & Hlabel).
    unfold body, column_calls. rewrite Hlabel.
    plt_step. cbv zeta.
    unfold power_spectrum.
    apply Nat.eqb_neq in Hcols. rewrite Hcols. plt_step.
    apply Nat.eqb_neq in Hrows. rewrite Hrows. plt_step.
    rewrite (@rfftfreq_ok _ _ Hnz). plt_step.
    rewrite (@np_getitem_mask (fun f => PrimFloat.leb f m)
               (bins (shape1 (getitem2 a frame)) d)
               (bins (shape1 (getitem2 a frame)) d) eq_refl).
    plt_step.
    rewrite (@np_getitem_mask (fun f => PrimFloat.leb f m)
               (bins (shape1 (getitem2 a frame)) d)).
    2:{ rewrite length_bins, length_mean_axis0. reflexivity. }
    plt_step.
    unfold emit, modify.
    rewrite <- !app_assoc. cbn [app].
    destruct (@mask_selects_paired (fun f => PrimFloat.leb f m)
                (bins (shape1 (getitem2 a frame)) d)
                (averaged_power rfft_power np_mean (getitem2 a frame)))
      as [Hxs Hys].
    { unfold averaged_power.
      rewrite length_bins, length_mean_axis0. reflexivity. }
    rewrite mask_selects.
    unfold displayed_series. cbv zeta. cbn [fst snd].
    rewrite <- Hxs. unfold averaged_power in Hys |- *.
    rewrite <- Hys. reflexivity. }
  unfold bind at 1.
  rewrite (@for_enumerate_ok _ _ body _ (map Arr l) 0%nat _ Hbody).
  destruct save_to as [path |].
  - rewrite bind_emit. unfold emit, modify.
    rewrite <- !app_assoc. reflexivity.
  - rewrite bind_ret. unfold emit, modify.
    rewrite <- !app_assoc. reflexivity.
Qed.

End SpectrumOk.

(** ** Frequency bins against the bound *)



(** The bins are doubles. For 3 samples and [timestep] 1 the first
    positive bin is the double nearest to 1/3, and a bound equal to that
    double keeps it. For a [timestep] so large that [n * d] overflows,
    every bin is 0. *)
Lemma bins_in_double_precision :
  bins 3 1%float = [0%float; (1 / 3)%float]
  /\ filter (fun f => PrimFloat.leb f (1 / 3)%float) (bins 3 1%float)
     = bins 3 1%float
  /\ bins 4 0x1p+1023%float = [0%float; 0%float; 0%float].
Proof.
  split; [vm_compute; reflexivity |].
  split; vm_compute; reflexivity.
Qed.

Section SpectrumClaims.

Variable rfft_power : list float -> nat -> float.
Variable np_mean : list float -> float.

(** C2. [spectrum_plot] never reads [rate]: two calls that differ only
    in [rate] make the same calls and end in the same way, whatever the
    other arguments, the numeric collaborator and the binding of
    [timestep]. The frequencies come from the module-level [timestep]:
    on the example seismogram, whatever the rate, the bins are 0, 1/4 and
    1/2 when [timestep] is 1 and 0, 1/8 and 1/4 when it is 2, and the call
    raises [NameError] when [timestep] is not bound. *)
Theorem spectrum_plot_ignores_rate
    (timestep : option float) (frame : slice * slice) (arrs : PyArr)
    (rate rate' : float) (max_freq : option float) (names : option Names)
    (figsize : option (float * float)) (save_to : option string)
    (kwargs : Kwargs) (tr : list PltCall) :
  spectrum_plot rfft_power np_mean timestep frame arrs rate max_freq
    names figsize save_to kwargs tr
  = spectrum_plot rfft_power np_mean timestep frame arrs rate' max_freq
      names figsize save_to kwargs tr
  /\ map fst (plotted (fst (spectrum_plot rfft_power np_mean (Some 1%float)
                              Example.roi (Arr Example.ramp) rate
                              (Some 1%float) None None None [] [])))
     = [[0; 0.25; 0.5]%float]
  /\ map fst (plotted (fst (spectrum_plot rfft_power np_mean (Some 2%float)
                              Example.roi (Arr Example.ramp) rate
                              (Some 1%float) None None None [] [])))
     = [[0; 0.125; 0.25]%float]
  /\ snd (spectrum_plot rfft_power np_mean None
            Example.roi (Arr Example.ramp) rate
            (Some 1%float) None None None [] [])
     = Raise NameError.
Proof.
  split; [reflexivity |].
  split; [reflexivity |]. split; reflexivity.
Qed.


End SpectrumClaims.



(** * Further properties of the code *)

(** ** [IndexTracker]: failures and repeated scrolling *)

Section TrackerEdges.
Import IndexTracker TrackerFacts.

(** Whatever happens in a redraw, it only adds calls to the axes. *)
Lemma update_only_draws (w : World) :
  exists calls, fst (update w) = redrawn w (ind (self w)) calls.
Proof.
  unfold update, bind, ax_call, gets, lift, modify. simpl.
  destruct (py_getitem (frames (self w)) (int_value (ind (self w)))); simpl;
    [| eexists; unfold redrawn; reflexivity].
  destruct (py_getitem (frame_names (self w)) (int_value (ind (self w))));
    simpl; eexists; unfold redrawn; rewrite <- ?app_assoc; reflexivity.
Qed.

(** While the arithmetic stays within 64 bits the new index is the clamp
    of the specification, held as an [int64]. *)
Lemma moved_within_int64 (w : World) (event : MouseEvent.t) :
  frames (self w) <> [] ->
  within_int64 w ->
  moved (if py_eq (MouseEvent.button event) (VStr "up")
         then Z.add else Z.sub)
    (ind (self w)) (step (self w)) (N w - 1)
  = Ok (Int64 (spec_scroll (N w) (step (self w)) (index w)
                 (direction event))).
Proof.
  intros Hne (Hi & Hsigned & Hstep).
  pose proof (len_pos Hne) as Hpos. fold (N w) in Hpos.
  unfold spec_scroll, direction, index in *.
  destruct (py_eq (MouseEvent.button event) (VStr "up"));
    rewrite moved_signed by (try assumption; lia);
    rewrite clip_value_is_clamp by lia; reflexivity.
Qed.

(** On an empty frame sequence the constructor raises [IndexError]: the
    axes it was given have been cleared and nothing else has been drawn or
    printed. *)
Theorem init_on_no_frame_raises
    (ax0 : list AxCall) (frame_names0 : list string) (scroll_step : Z)
    (kwargs : Kwargs) (out : list string) :
  __init__ ax0 [] frame_names0 scroll_step kwargs out
  = ({| self := {| ax := ax0 ++ [Clear];
                   frames := [];
                   step := scroll_step;
                   frame_names := frame_names0;
                   img_kwargs := kwargs;
                   ind := PyInt 0 |};
        stdout := out |}, Raise IndexError).
Proof. reflexivity. Qed.

(** A redraw at an index that has a frame and no label raises
    [IndexError] half-way: the axes have been cleared and show the
    transposed frame, while title, aspect and limits have not been set. *)
Theorem update_without_label_stops_after_image (w : World) :
  0 <= index w < N w ->
  len (frame_names (self w)) <= index w ->
  exists img,
    nth_error (frames (self w)) (Z.to_nat (index w)) = Some img
    /\ update w
       = (redrawn w (ind (self w))
            [Clear; Imshow (T img) (img_kwargs (self w))],
          Raise IndexError).
Proof.
  intros Hi Hn. unfold N, index in *.
  destruct (py_getitem_in_range (frames (self w)) Hi) as (img & Himg & Hgi).
  exists img. split; [exact Himg |].
  assert (Hgn : py_getitem (frame_names (self w)) (int_value (ind (self w)))
                = Raise IndexError).
  { unfold py_getitem.
    destruct (Z.ltb_spec (int_value (ind (self w))) 0) as [Hneg | _];
      [lia |].
    destruct (Z.ltb_spec (int_value (ind (self w)))
                (len (frame_names (self w))))
      as [Hlt | _]; [lia |].
    rewrite andb_false_r. reflexivity. }
  unfold update, bind, ax_call, gets, lift, modify. simpl.
  rewrite Hgi. simpl. rewrite Hgn. simpl.
  unfold redrawn. rewrite <- app_assoc. reflexivity.
Qed.

Lemma update_without_label_stops_after_image_witness :
  snd (__init__ [] Scenario.frames5 ["f0"; "f1"] 1 [] []) = Raise IndexError.
Proof.
  set (w := {| self := {| ax := [];
                          frames := Scenario.frames5;
                          step := 1;
                          frame_names := ["f0"; "f1"];
                          img_kwargs := [];
                          ind := PyInt 2 |};
               stdout := [] |}).
  assert (Hi : 0 <= index w < N w).
  { vm_compute. split; [discriminate | reflexivity]. }
  assert (Hn : len (frame_names (self w)) <= index w).
  { vm_compute. discriminate. }
  destruct (@update_without_label_stops_after_image w Hi Hn)
    as (img & _ & Heq).
  change (__init__ [] Scenario.frames5 ["f0"; "f1"] 1 [] []) with (update w).
  rewrite Heq. reflexivity.
Defined.

(** The handler moves the index before it redraws: on any scroller with at
    least one frame whose arithmetic stays within 64 bits (a valid index
    and a step of absolute value at most [2**63 - N]), even one whose
    labels are missing so that the redraw raises, an event leaves the
    index at the clamp of index + step or index - step, hence within
    [0, N-1], leaves frames, step, labels and keyword arguments as they
    were, and has printed one line. *)
Theorem onscroll_moves_index_even_if_redraw_fails
    (w : World) (event : MouseEvent.t) :
  frames (self w) <> [] ->
  within_int64 w ->
  index (fst (onscroll event w))
  = spec_scroll (N w) (step (self w)) (index w) (direction event)
  /\ 0 <= index (fst (onscroll event w)) <= N w - 1
  /\ frames (self (fst (onscroll event w))) = frames (self w)
  /\ step (self (fst (onscroll event w))) = step (self w)
  /\ frame_names (self (fst (onscroll event w))) = frame_names (self w)
  /\ img_kwargs (self (fst (onscroll event w))) = img_kwargs (self w)
  /\ stdout (fst (onscroll event w)) = stdout w ++ [echo event].
Proof.
  intros Hne Hin. pose proof (len_pos Hne) as Hpos. fold (N w) in Hpos.
  rewrite onscroll_unfold, (moved_within_int64 event Hne Hin).
  match goal with
  | |- context [update ?w0] => set (w1 := w0)
  end.
  destruct (update_only_draws w1) as (calls & Heq). rewrite Heq.
  unfold index, w1. fields.
  split; [reflexivity |]. split.
  { unfold spec_scroll. destruct (direction event);
      apply clamp_bounds; lia. }
  repeat split; reflexivity.
Qed.

Lemma onscroll_moves_index_even_if_redraw_fails_witness :
  index (fst (onscroll (Scenario.scroll "up" 1)
                {| self := {| ax := [];
                              frames := Scenario.frames5;
                              step := 1;
                              frame_names := [];
                              img_kwargs := [];
                              ind := PyInt 2 |};
                   stdout := [] |})) = 3
  /\ snd (onscroll (Scenario.scroll "up" 1)
            {| self := {| ax := [];
                          frames := Scenario.frames5;
                          step := 1;
                          frame_names := [];
                          img_kwargs := [];
                          ind := PyInt 2 |};
               stdout := [] |}) = Raise IndexError.
Proof.
  split; [| reflexivity].
  assert (Hne : frames (self {| self := {| ax := [];
                                           frames := Scenario.frames5;
                                           step := 1;
                                           frame_names := [];
                                           img_kwargs := [];
                                           ind := PyInt 2 |};
                                stdout := [] |}) <> []) by discriminate.
  assert (Hin : within_int64 {| self := {| ax := [];
                                           frames := Scenario.frames5;
                                           step := 1;
                                           frame_names := [];
                                           img_kwargs := [];
                                           ind := PyInt 2 |};
                                stdout := [] |}).
  { split; [vm_compute; split; discriminate |].
    split; [exact I | vm_compute; discriminate]. }
  rewrite (proj1 (@onscroll_moves_index_even_if_redraw_fails _
                    (Scenario.scroll "up" 1) Hne Hin)).
  reflexivity.
Defined.

Lemma spec_indices_increase (n s : Z) (k : nat) :
  0 <= s ->
  forall i, 0 <= i <= n - 1 ->
    spec_indices n s i (repeat Increase k)
    = map (fun j => Z.min (i + Z.of_nat j * s) (n - 1)) (seq 1 k).
Proof.
  intros Hs. induction k as [| k IH]; intros i Hi; [reflexivity |].
  cbn [repeat spec_indices spec_scroll seq map].
  assert (Hc : clamp (i + s) 0 (n - 1) = Z.min (i + s) (n - 1)).
  { unfold clamp. destruct (Z.ltb_spec (i + s) 0); [lia |].
    destruct (Z.ltb_spec (n - 1) (i + s)); lia. }
  rewrite Hc. f_equal; [f_equal; lia |].
  rewrite IH by lia. rewrite <- (seq_shift k 1), map_map.
  apply map_ext. intros j.
  pose proof (Z.mul_nonneg_nonneg (Z.of_nat j) s ltac:(lia) Hs) as Hjs.
  replace (Z.of_nat (S j) * s) with (Z.of_nat j * s + s) by lia.
  lia.
Qed.

Lemma spec_indices_decrease (n s : Z) (k : nat) :
  0 <= s ->
  forall i, 0 <= i <= n - 1 ->
    spec_indices n s i (repeat Decrease k)
    = map (fun j => Z.max (i - Z.of_nat j * s) 0) (seq 1 k).
Proof.
  intros Hs. induction k as [| k IH]; intros i Hi; [reflexivity |].
  cbn [repeat spec_indices spec_scroll seq map].
  assert (Hc : clamp (i - s) 0 (n - 1) = Z.max (i - s) 0).
  { unfold clamp. destruct (Z.ltb_spec (i - s) 0); [lia |].
    destruct (Z.ltb_spec (n - 1) (i - s)); lia. }
  rewrite Hc. f_equal; [f_equal; lia |].
  rewrite IH by lia. rewrite <- (seq_shift k 1), map_map.
  apply map_ext. intros j.
  pose proof (Z.mul_nonneg_nonneg (Z.of_nat j) s ltac:(lia) Hs) as Hjs.
  replace (Z.of_nat (S j) * s) with (Z.of_nat j * s + s) by lia.
  lia.
Qed.

Lemma all_same_direction (d : Direction) (events : list MouseEvent.t) :
  Forall (fun e => direction e = d) events ->
  map direction events = repeat d (List.length events).
Proof.
  induction 1 as [| e events' He _ IH]; [reflexivity |].
  simpl. rewrite He, IH. reflexivity.
Qed.

(** Scrolling one way saturates: on a labelled scroller showing index i of
    N frames with a step s between 0 and [2**63 - N], the j-th of a run of
    'up' events leaves index min(i + j * s, N - 1), and the j-th of a run
    of events with another button leaves index max(i - j * s, 0). *)
Theorem scrolling_one_way_saturates
    (w : World) (ups downs : list MouseEvent.t) :
  labelled w ->
  within_int64 w ->
  0 <= step (self w) ->
  Forall (fun e => direction e = Increase) ups ->
  Forall (fun e => direction e = Decrease) downs ->
  indices (scroll_run w ups)
  = map (fun j => Z.min (index w + Z.of_nat j * step (self w)) (N w - 1))
      (seq 1 (List.length ups))
  /\ indices (scroll_run w downs)
     = map (fun j => Z.max (index w - Z.of_nat j * step (self w)) 0)
         (seq 1 (List.length downs)).
Proof.
  intros Hw Hin Hs Hups Hdowns.
  pose proof (proj1 Hin) as Hi. split.
  - rewrite (proj1 (scroll_run_spec ups Hw Hin)).
    rewrite (all_same_direction Hups).
    apply spec_indices_increase; assumption.
  - rewrite (proj1 (scroll_run_spec downs Hw Hin)).
    rewrite (all_same_direction Hdowns).
    apply spec_indices_decrease; assumption.
Qed.

Lemma scrolling_one_way_saturates_witness :
  indices (scroll_run Scenario.scroller
             [Scenario.scroll "up" 1; Scenario.scroll "up" 1;
              Scenario.scroll "up" 1; Scenario.scroll "up" 1])
  = [3; 4; 4; 4].
Proof.
  assert (Hw : labelled Scenario.scroller).
  { split; [discriminate | simpl; lia]. }
  assert (Hin : within_int64 Scenario.scroller).
  { split; [vm_compute; split; discriminate |].
    split; [exact I | vm_compute; discriminate]. }
  assert (Hs : 0 <= step (self Scenario.scroller)).
  { vm_compute. discriminate. }
  assert (Hups : Forall (fun e => direction e = Increase)
                   [Scenario.scroll "up" 1; Scenario.scroll "up" 1;
                    Scenario.scroll "up" 1; Scenario.scroll "up" 1]).
  { repeat constructor. }
  rewrite (proj1 (@scrolling_one_way_saturates Scenario.scroller _ []
                    Hw Hin Hs Hups (Forall_nil _))).
  reflexivity.
Defined.

End TrackerEdges.


(** ** [seismic_plot]: the calls it makes *)

Section LoopsThatRaise.
Variables (A C : Type).

(** A loop stops at the first round that raises: the calls of the rounds
    before it and the calls of that round have been made, the rounds after
    it are not run. *)
Lemma for_enumerate_raises (body : nat -> A -> M (list C) unit)
    (calls : nat -> A -> list C) (x : A) (l2 : list A) (c : list C)
    (e : Exc) (l1 : list A) :
  forall (i : nat) (tr : list C),
    (forall k y tr', nth_error l1 k = Some y ->
       body (i + k)%nat y tr' = (tr' ++ calls (i + k)%nat y, Ok tt)) ->
    (forall tr', body (i + List.length l1)%nat x tr' = (tr' ++ c, Raise e)) ->
    for_enumerate body i (l1 ++ x :: l2) tr
    = (tr ++ enum_calls calls i l1 ++ c, Raise e).
Proof.
  induction l1 as [| y l1' IH]; intros i tr Hok Hraise.
  - cbn [app for_enumerate enum_calls]. unfold bind.
    pose proof (Hraise tr) as H0. cbn [List.length] in H0.
    rewrite Nat.add_0_r in H0. rewrite H0. reflexivity.
  - cbn [app for_enumerate enum_calls]. unfold bind.
    pose proof (Hok 0%nat y tr eq_refl) as H0.
    rewrite Nat.add_0_r in H0. rewrite H0.
    rewrite IH.
    + rewrite <- !app_assoc. reflexivity.
    + intros k z tr' Hk.
      replace (S i + k)%nat with (i + S k)%nat by lia.
      apply Hok. exact Hk.
    + intros tr'.
      replace (S i + List.length l1')%nat
        with (i + List.length (y :: l1'))%nat by (cbn [List.length]; lia).
      apply Hraise.
Qed.

End LoopsThatRaise.

Lemma py_getitem_beyond (A : Type) (l : list A) (i : nat) :
  (List.length l <= i)%nat -> py_getitem l (Z.of_nat i) = Raise IndexError.
Proof.
  intros Hi. unfold py_getitem.
  destruct (Z.ltb_spec (Z.of_nat i) 0) as [Hneg | _]; [lia |].
  destruct (Z.ltb_spec (Z.of_nat i) (len l)) as [Hlt | _];
    [unfold len in Hlt; lia |].
  rewrite andb_false_r. reflexivity.
Qed.

(** The round of [seismic_plot] on column [k], when a label is there if
    labels are given. *)
Lemma seismic_round (names : option (list string)) (kwargs : Kwargs)
    (k : nat) (a : ndarray2) (tr : list PltCall) :
  match names with
  | Some l => (k < List.length l)%nat
  | None => True
  end ->
  (emit (OnAx 0 k (Imshow (T a) kwargs)) ;;
   match names with
   | Some l =>
       title <- lift (py_getitem l (Z.of_nat k)) ;;
       emit (OnAx 0 k (SetTitle title))
   | None => ret tt
   end ;;
   emit (OnAx 0 k (SetAspect "auto"))) tr
  = (tr ++ image_calls names kwargs k (Arr a), Ok tt).
Proof.
  intros Hcov. unfold image_calls. rewrite bind_emit.
  destruct names as [l |].
  - assert (Hr : 0 <= Z.of_nat k < len l) by (unfold len; lia).
    destruct (py_getitem_in_range l Hr) as (title & _ & Hgi).
    rewrite Hgi, bind_assoc, bind_lift_Ok, bind_emit.
    unfold emit, modify. rewrite <- !app_assoc. reflexivity.
  - rewrite bind_ret. unfold emit, modify.
    rewrite <- !app_assoc. reflexivity.
Qed.

(** The round of [seismic_plot] on a column beyond the labels. *)
Lemma seismic_round_unlabelled (l : list string) (kwargs : Kwargs)
    (k : nat) (a : ndarray2) (tr : list PltCall) :
  (List.length l <= k)%nat ->
  (emit (OnAx 0 k (Imshow (T a) kwargs)) ;;
   (title <- lift (py_getitem l (Z.of_nat k)) ;;
    emit (OnAx 0 k (SetTitle title))) ;;
   emit (OnAx 0 k (SetAspect "auto"))) tr
  = (tr ++ [OnAx 0 k (Imshow (T a) kwargs)], Raise IndexError).
Proof.
  intros Hk. rewrite bind_emit, bind_assoc.
  rewrite (py_getitem_beyond l Hk). reflexivity.
Qed.

Lemma enum_calls_length (A C : Type) (calls : nat -> A -> list C)
    (f : A -> nat) (l : list A) :
  (forall i x, List.length (calls i x) = f x) ->
  forall i, List.length (enum_calls calls i l) = list_sum (map f l).
Proof.
  intros Hf. induction l as [| x l' IH]; intros i; [reflexivity |].
  cbn [enum_calls map list_sum]. rewrite length_app, Hf, IH. reflexivity.
Qed.

Lemma enum_calls_all (A C : Type) (P : C -> Prop)
    (calls : nat -> A -> list C) (l : list A) :
  (forall i x, Forall P (calls i x)) ->
  forall i, Forall P (enum_calls calls i l).
Proof.
  intros HP. induction l as [| x l' IH]; intros i; [constructor |].
  cbn [enum_calls]. apply Forall_app. split; [apply HP | apply IH].
Qed.

Lemma image_calls_on_axes (names : option (list string)) (kwargs : Kwargs)
    (i : nat) (x : PyArr) :
  Forall on_axes (image_calls names kwargs i x).
Proof.
  destruct x as [a | l]; [| constructor]. unfold image_calls.
  constructor; [exact I |]. apply Forall_app. split.
  - destruct names as [l |]; [| constructor].
    destruct (py_getitem l (Z.of_nat i)); repeat constructor.
  - repeat constructor.
Qed.

Lemma on_axes_not_show (calls : list PltCall) :
  Forall on_axes calls -> ~ In Show calls.
Proof.
  intros H Hin. rewrite Forall_forall in H. exact (H Show Hin).
Qed.

Lemma on_axes_not_saved (calls : list PltCall) :
  Forall on_axes calls -> saved calls = [].
Proof.
  intros H. apply saved_none. eapply Forall_impl; [| exact H].
  intros c Hc path Heq. subst c. exact Hc.
Qed.

(** A sequence of 2-D arrays of one shape is iterated as it is, the empty
    sequence included: only a bare 2-D array gets wrapped. *)
Theorem wrap_single_keeps_sequences (l : list ndarray2) (h w : nat) :
  Forall (fun a => shape0 a = h /\ shape1 a = w) l ->
  wrap_single (Tup (map Arr l)) = Ok (map Arr l).
Proof.
  intros Hall. unfold wrap_single, np_asarray_ndim.
  cbn [np_shape]. rewrite map_map. cbn [np_shape].
  destruct l as [| a l']; [reflexivity |].
  cbn [map].
  assert (Hrest : forallb (fun o => match o with
                                    | Some s' =>
                                        shape_eqb [shape0 a; shape1 a] s'
                                    | None => false
                                    end)
                    (map (fun x => Some [shape0 x; shape1 x]) l') = true).
  { inversion Hall as [| a0 l0 [Ha0 Ha1] Hl']; subst.
    apply forallb_forall. intros o Ho. apply in_map_iff in Ho.
    destruct Ho as (b & <- & Hb). rewrite Forall_forall in Hl'.
    destruct (Hl' b Hb) as [Hb0 Hb1]. cbn [shape_eqb].
    rewrite Hb0, Hb1, !Nat.eqb_refl. reflexivity. }
  rewrite Hrest. reflexivity.
Qed.

Lemma wrap_single_keeps_sequences_witness :
  wrap_single (Tup [Arr Example.ramp; Arr Example.ramp])
  = Ok [Arr Example.ramp; Arr Example.ramp].
Proof.
  apply (@wrap_single_keeps_sequences [Example.ramp; Example.ramp] 3 4).
  repeat constructor.
Defined.



(** On the empty sequence both plotting functions ask for a grid without
    columns, which matplotlib refuses: they raise [ValueError], nothing is
    drawn, saved or shown. *)
Theorem plots_of_nothing_raise
    (rfft_power : list float -> nat -> float) (np_mean : list float -> float)
    (timestep : option float) (frame : slice * slice) (rate : float)
    (max_freq : option float) (names : option Names)
    (figsize : option (float * float)) (save_to : option string) (kwargs : Kwargs)
    (tr : list PltCall) :
  seismic_plot (Tup []) names figsize save_to kwargs tr
  = (tr ++ [Subplots 1 0 figsize false], Raise ValueError)
  /\ spectrum_plot rfft_power np_mean timestep frame (Tup []) rate max_freq
       names figsize save_to kwargs tr
     = (tr ++ [Subplots 2 0 figsize false], Raise ValueError).
Proof. split; reflexivity. Qed.

(** With fewer labels than arrays [seismic_plot] raises [IndexError] at the
    first array without a label: the columns before it are complete, that
    column shows its image without title or aspect, later arrays are not
    drawn and the figure is never shown. *)
Theorem seismic_plot_with_too_few_names_raises
    (arrs : PyArr) (l1 l2 : list ndarray2) (a : ndarray2)
    (labels : list string) (names : option Names)
    (figsize : option (float * float)) (save_to : option string) (kwargs : Kwargs)
    (tr : list PltCall) :
  wrap_single arrs = Ok (map Arr (l1 ++ a :: l2)) ->
  wrap_names names = Some labels ->
  List.length labels = List.length l1 ->
  seismic_plot arrs names figsize save_to kwargs tr
  = (tr ++ [Subplots 1 (List.length (l1 ++ a :: l2)) figsize false]
        ++ enum_calls (image_calls (Some labels) kwargs) 0 (map Arr l1)
        ++ [OnAx 0 (List.length l1) (Imshow (T a) kwargs)],
     Raise IndexError)
  /\ ~ In Show (enum_calls (image_calls (Some labels) kwargs) 0 (map Arr l1)
                ++ [OnAx 0 (List.length l1) (Imshow (T a) kwargs)]).
Proof.
  intros Hwrap Hnames Hlabels. split.
  - unfold seismic_plot. rewrite Hwrap, bind_lift_Ok. cbv zeta.
    unfold subplots. rewrite bind_assoc, bind_emit. cbv beta.
    rewrite length_map.
    assert (Hlen : (List.length (l1 ++ a :: l2) =? 0)%nat = false).
    { rewrite length_app. cbn [List.length].
      apply Nat.eqb_neq. lia. }
    rewrite Hlen, bind_ret, Hnames.
    match goal with
    | |- context [for_enumerate ?b _ _] => set (body := b)
    end.
    rewrite map_app. cbn [map].
    unfold bind at 1.
    rewrite (@for_enumerate_raises _ _ body
               (image_calls (Some labels) kwargs) (Arr a) (map Arr l2)
               [OnAx 0 (List.length l1) (Imshow (T a) kwargs)] IndexError
               (map Arr l1) 0%nat).
    + rewrite <- !app_assoc. reflexivity.
    + intros k x tr' Hk. rewrite Nat.add_0_l.
      rewrite nth_error_map in Hk.
      destruct (nth_error l1 k) as [b |] eqn:Hnth; [| discriminate].
      injection Hk as <-.
      assert (Hklt : (k < List.length l1)%nat)
        by (apply nth_error_Some; congruence).
      unfold body.
      apply (@seismic_round (Some labels) kwargs k b tr'). lia.
    + intros tr'. rewrite Nat.add_0_l, length_map.
      unfold body. apply seismic_round_unlabelled. lia.
  - apply on_axes_not_show. apply Forall_app. split.
    + apply enum_calls_all. intros i x. apply image_calls_on_axes.
    + repeat constructor.
Qed.

Lemma seismic_plot_with_too_few_names_raises_witness :
  seismic_plot (Tup [Arr Example.ramp; Arr Example.ramp])
    (Some (NameStr "shot")) None None [] []
  = ([ Subplots 1 2 None false;
       OnAx 0 0 (Imshow (T Example.ramp) []);
       OnAx 0 0 (SetTitle "shot");
       OnAx 0 0 (SetAspect "auto");
       OnAx 0 1 (Imshow (T Example.ramp) []) ],
     Raise IndexError).
Proof.
  exact (proj1 (@seismic_plot_with_too_few_names_raises
                  (Tup [Arr Example.ramp; Arr Example.ramp])
                  [Example.ramp] [] Example.ramp ["shot"]
                  (Some (NameStr "shot")) None None [] []
                  eq_refl eq_refl eq_refl)).
Defined.


(** ** [spectrum_plot]: the calls it makes and where it stops *)

Section SpectrumRounds.

Variable rfft_power : list float -> nat -> float.
Variable np_mean : list float -> float.

(** The round of [spectrum_plot] on column [k]: the top row is drawn, then
    the series is computed, and the bottom row is drawn if that went
    well. *)
Lemma spectrum_round (timestep max_freq : option float) (frame : slice * slice)
    (names : option (list string)) (kwargs : Kwargs) (k : nat)
    (a : ndarray2) (label : string) (tr : list PltCall) :
  label_of names k = Ok label ->
  (emit (OnAx 0 k (Imshow (T a) kwargs)) ;;
   emit (OnAx 0 k (AddPatch
     {| xy := (start (fst frame), start (snd frame));
        width := stop (fst frame) - start (fst frame);
        height := stop (snd frame) - start (snd frame);
        edgecolor := "r";
        facecolor := "none";
        rect_lw := 2 |})) ;;
   label <- lift (label_of names k) ;;
   emit (OnAx 0 k (SetTitle (String.append "Seismogram " label))) ;;
   emit (OnAx 0 k (SetAspect "auto")) ;;
   let block := getitem2 a frame in
   spec <- lift (power_spectrum rfft_power block) ;;
   (if (shape0 block =? 0)%nat
    then lift (Raise IndexError) else ret tt) ;;
   d <- lift (match timestep with
              | Some d => Ok d
              | None => Raise NameError
              end) ;;
   freqs <- lift (rfftfreq (shape1 block) d) ;;
   let mask := match max_freq with
               | Some m => BoolMask (map (fun f => PrimFloat.leb f m) freqs)
               | None => FloatIndex freqs
               end in
   xs <- lift (np_getitem freqs mask) ;;
   ys <- lift (np_getitem
                 (mean_axis0 np_mean spec (n_bins (shape1 block))) mask) ;;
   emit (OnAx 1 k (Plot xs ys 2)) ;;
   emit (OnAx 1 k (SetXlabel "Hz")) ;;
   label' <- lift (label_of names k) ;;
   emit (OnAx 1 k (SetTitle (String.append "Spectrum plot " label'))) ;;
   emit (OnAx 1 k (SetAspect "auto"))) tr
  = match series_of rfft_power np_mean timestep max_freq frame a with
    | Ok (xs, ys) =>
        (tr ++ top_row_calls frame label kwargs k a
            ++ bottom_row_calls xs ys label k, Ok tt)
    | Raise e => (tr ++ top_row_calls frame label kwargs k a, Raise e)
    end.
Proof.
  intros Hlabel. unfold series_of, top_row_calls, bottom_row_calls.
  rewrite Hlabel. plt_step. cbv zeta.
  destruct (power_spectrum rfft_power (getitem2 a frame)) as [spec | e].
  2:{ rewrite bind_lift_Raise, <- !app_assoc. reflexivity. }
  plt_step.
  destruct (shape0 (getitem2 a frame) =? 0)%nat.
  { rewrite bind_lift_Raise, <- !app_assoc. reflexivity. }
  plt_step.
  destruct timestep as [d |].
  2:{ rewrite bind_lift_Raise, <- !app_assoc. reflexivity. }
  plt_step.
  destruct (rfftfreq (shape1 (getitem2 a frame)) d) as [freqs | e].
  2:{ rewrite bind_lift_Raise, <- !app_assoc. reflexivity. }
  plt_step. cbv zeta.
  match goal with
  | |- context [np_getitem freqs ?m] => set (mask := m)
  end.
  destruct (np_getitem freqs mask) as [xs | e].
  2:{ rewrite bind_lift_Raise, <- !app_assoc. reflexivity. }
  plt_step.
  destruct (np_getitem _ mask) as [ys | e].
  2:{ rewrite bind_lift_Raise, <- !app_assoc. reflexivity. }
  plt_step. unfold emit, modify. rewrite <- !app_assoc. reflexivity.
Qed.

(** When the series of the first array cannot be computed, the call stops
    there: the grid has been asked for and the top row of the first column
    drawn. *)
Lemma spectrum_plot_stops_in_first_column
    (timestep max_freq : option float) (frame : slice * slice) (arrs : PyArr)
    (rate : float) (names : option Names) (figsize : option (float * float))
    (save_to : option string) (kwargs : Kwargs) (tr : list PltCall)
    (a : ndarray2) (rest : list PyArr) (e : Exc) :
  wrap_single arrs = Ok (Arr a :: rest) ->
  labels_cover names 1 ->
  series_of rfft_power np_mean timestep max_freq frame a = Raise e ->
  exists label,
    label_of (wrap_names names) 0 = Ok label
    /\ spectrum_plot rfft_power np_mean timestep frame arrs rate max_freq
         names figsize save_to kwargs tr
       = (tr ++ [Subplots 2 (S (List.length rest)) figsize false]
             ++ top_row_calls frame label kwargs 0 a,
          Raise e).
Proof.
  intros Hwrap Hcov Hseries.
  destruct (@label_of_covered (wrap_names names) 1 0 Hcov ltac:(lia))
    as (label & Hlabel).
  exists label. split; [exact Hlabel |].
  unfold spectrum_plot. rewrite Hwrap, bind_lift_Ok. cbv zeta.
  unfold subplots. rewrite bind_assoc, bind_emit. cbv beta.
  cbn [List.length Nat.eqb]. rewrite bind_ret.
  cbn [for_enumerate]. rewrite bind_assoc. unfold bind at 1.
  rewrite (@spectrum_round timestep max_freq frame (wrap_names names)
             kwargs 0%nat a label _ Hlabel).
  rewrite Hseries. rewrite <- !app_assoc. reflexivity.
Qed.

(** [spectrum_plot] called without [max_freq] raises [IndexError]: the mask
    is then the array of frequencies itself, which NumPy does not take as
    an index. With a non-empty region of interest in the first array and
    [timestep] bound to a value whose product with the number of samples
    is not zero, the call stops after the top row of the first column: no
    curve is drawn, nothing is saved or shown. *)
Theorem spectrum_plot_without_max_freq_raises
    (d : float) (frame : slice * slice) (arrs : PyArr) (rate : float)
    (names : option Names) (figsize : option (float * float))
    (save_to : option string) (kwargs : Kwargs) (tr : list PltCall)
    (a : ndarray2) (rest : list PyArr) :
  wrap_single arrs = Ok (Arr a :: rest) ->
  labels_cover names 1 ->
  shape0 (getitem2 a frame) <> 0%nat ->
  shape1 (getitem2 a frame) <> 0%nat ->
  (float_of_nat (shape1 (getitem2 a frame)) * d =? 0)%float = false ->
  exists label,
    label_of (wrap_names names) 0 = Ok label
    /\ spectrum_plot rfft_power np_mean (Some d) frame arrs rate None
         names figsize save_to kwargs tr
       = (tr ++ [Subplots 2 (S (List.length rest)) figsize false]
             ++ top_row_calls frame label kwargs 0 a,
          Raise IndexError).
Proof.
  intros Hwrap Hcov Hrows Hcols Hd.
  apply spectrum_plot_stops_in_first_column; try assumption.
  unfold series_of, power_spectrum. cbv zeta.
  apply Nat.eqb_neq in Hrows. rewrite Hrows.
  apply Nat.eqb_neq in Hcols. rewrite Hcols.
  rewrite (@rfftfreq_ok _ _ Hd). reflexivity.
Qed.

(** While the module does not bind [timestep], [spectrum_plot] raises
    [NameError] on any array with a non-empty region of interest, whatever
    [rate] and [max_freq]: the call stops after the top row of the first
    column. *)
Theorem spectrum_plot_without_timestep_raises
    (max_freq : option float) (frame : slice * slice) (arrs : PyArr) (rate : float)
    (names : option Names) (figsize : option (float * float))
    (save_to : option string) (kwargs : Kwargs) (tr : list PltCall)
    (a : ndarray2) (rest : list PyArr) :
  wrap_single arrs = Ok (Arr a :: rest) ->
  labels_cover names 1 ->
  shape0 (getitem2 a frame) <> 0%nat ->
  shape1 (getitem2 a frame) <> 0%nat ->
  exists label,
    label_of (wrap_names names) 0 = Ok label
    /\ spectrum_plot rfft_power np_mean None frame arrs rate max_freq
         names figsize save_to kwargs tr
       = (tr ++ [Subplots 2 (S (List.length rest)) figsize false]
             ++ top_row_calls frame label kwargs 0 a,
          Raise NameError).
Proof.
  intros Hwrap Hcov Hrows Hcols.
  apply spectrum_plot_stops_in_first_column; try assumption.
  unfold series_of, power_spectrum. cbv zeta.
  apply Nat.eqb_neq in Hrows. rewrite Hrows.
  apply Nat.eqb_neq in Hcols. rewrite Hcols. reflexivity.
Qed.

(** A region of interest that selects no column of the first array makes
    [spectrum_plot] raise [ValueError] (a transform over no sample); one
    that selects columns and no row makes it raise [IndexError] (no first
    row to measure). Either way the call stops after the top row of the
    first column, whatever [timestep] and [max_freq]. *)
Theorem spectrum_plot_on_empty_region_raises
    (timestep max_freq : option float) (frame : slice * slice) (arrs : PyArr)
    (rate : float) (names : option Names) (figsize : option (float * float))
    (save_to : option string) (kwargs : Kwargs) (tr : list PltCall)
    (a : ndarray2) (rest : list PyArr) :
  wrap_single arrs = Ok (Arr a :: rest) ->
  labels_cover names 1 ->
  shape0 (getitem2 a frame) = 0%nat \/ shape1 (getitem2 a frame) = 0%nat ->
  exists label,
    label_of (wrap_names names) 0 = Ok label
    /\ spectrum_plot rfft_power np_mean timestep frame arrs rate max_freq
         names figsize save_to kwargs tr
       = (tr ++ [Subplots 2 (S (List.length rest)) figsize false]
             ++ top_row_calls frame label kwargs 0 a,
          Raise (if (shape1 (getitem2 a frame) =? 0)%nat
                 then ValueError else IndexError)).
Proof.
  intros Hwrap Hcov Hempty.
  apply spectrum_plot_stops_in_first_column; try assumption.
  unfold series_of, power_spectrum. cbv zeta.
  destruct (shape1 (getitem2 a frame) =? 0)%nat eqn:Hcols; [reflexivity |].
  destruct Hempty as [Hrows | Hc].
  - rewrite Hrows. reflexivity.
  - apply Nat.eqb_neq in Hcols. contradiction.
Qed.

Lemma column_calls_on_axes (d m : float) (frame : slice * slice)
    (names : option (list string)) (kwargs : Kwargs) (i : nat) (x : PyArr) :
  Forall on_axes (column_calls rfft_power np_mean d m frame names kwargs i x).
Proof.
  destruct x as [a | l]; [| constructor].
  unfold column_calls. repeat constructor.
Qed.

(** On well-formed input (arrays with non-empty regions of interest, a
    label for each column when labels are given, [timestep] bound to a
    value whose product with the number of samples is not zero, a bound on
    the frequency) [spectrum_plot] returns
    without error; after the grid of two rows it makes calls on the axes
    only, eight per array, then saves the figure exactly when [save_to] is
    a path, once, and shows it last. *)
Theorem spectrum_plot_saves_then_shows
    (d m : float) (frame : slice * slice) (arrs : PyArr) (rate : float)
    (names : option Names) (figsize : option (float * float))
    (save_to : option string) (kwargs : Kwargs) (tr : list PltCall)
    (l : list ndarray2) :
  wrap_single arrs = Ok (map Arr l) ->
  l <> [] ->
  labels_cover names (List.length l) ->
  Forall (fun a => shape0 (getitem2 a frame) <> 0%nat
                   /\ shape1 (getitem2 a frame) <> 0%nat
                   /\ (float_of_nat (shape1 (getitem2 a frame)) * d
                       =? 0)%float = false) l ->
  exists calls,
    Forall on_axes calls
    /\ List.length calls = (8 * List.length l)%nat
    /\ spectrum_plot rfft_power np_mean (Some d) frame arrs rate (Some m)
         names figsize save_to kwargs tr
       = (tr ++ [Subplots 2 (List.length l) figsize false] ++ calls
             ++ match save_to with
                | Some path => [Savefig path]
                | None => []
                end
             ++ [Show],
          Ok tt)
    /\ saved (fst (spectrum_plot rfft_power np_mean (Some d) frame arrs rate
                     (Some m) names figsize save_to kwargs tr))
       = saved tr ++ match save_to with
                     | Some path => [path]
                     | None => []
                     end.
Proof.
  intros Hwrap Hne Hcov Hblocks.
  set (calls := enum_calls (column_calls rfft_power np_mean d m frame
                              (wrap_names names) kwargs) 0 (map Arr l)).
  assert (Hax : Forall on_axes calls).
  { apply enum_calls_all. intros i x. apply column_calls_on_axes. }
  exists calls. split; [exact Hax |]. split.
  { unfold calls.
    rewrite (@enum_calls_length _ _ _ (fun x => match x with
                                                 | Arr _ => 8%nat
                                                 | Tup _ => 0%nat
                                                 end)).
    - rewrite map_map.
      clear. induction l as [| a l' IH]; [reflexivity |].
      simpl in *. lia.
    - intros i [a | l0]; reflexivity. }
  rewrite (@spectrum_plot_ok rfft_power np_mean d m frame arrs rate names
             figsize save_to kwargs tr l Hwrap Hne Hcov Hblocks).
  fold calls. split; [reflexivity |].
  cbn [fst]. rewrite !saved_app, (on_axes_not_saved Hax).
  destruct save_to; reflexivity.
Qed.

End SpectrumRounds.

Lemma spectrum_plot_without_max_freq_raises_witness :
  snd (spectrum_plot Example.rfft_power4 Example.mean (Some 1%float)
         Example.roi (Arr Example.ramp) 500%float None None None None [] [])
  = Raise IndexError.
Proof.
  destruct (@spectrum_plot_without_max_freq_raises
              Example.rfft_power4 Example.mean 1%float Example.roi
              (Arr Example.ramp) 500%float None None None [] []
              Example.ramp [] eq_refl I
              ltac:(vm_compute; discriminate)
              ltac:(vm_compute; discriminate)
              eq_refl)
    as (label & _ & Heq).
  rewrite Heq. reflexivity.
Defined.

Lemma spectrum_plot_without_timestep_raises_witness :
  snd (spectrum_plot Example.rfft_power4 Example.mean None
         Example.roi (Arr Example.ramp) 500%float (Some 1%float) None None None [] [])
  = Raise NameError.
Proof.
  destruct (@spectrum_plot_without_timestep_raises
              Example.rfft_power4 Example.mean (Some 1%float) Example.roi
              (Arr Example.ramp) 500%float None None None [] []
              Example.ramp [] eq_refl I
              ltac:(vm_compute; discriminate)
              ltac:(vm_compute; discriminate))
    as (label & _ & Heq).
  rewrite Heq. reflexivity.
Defined.

Lemma spectrum_plot_on_empty_region_raises_witness :
  snd (spectrum_plot Example.rfft_power4 Example.mean (Some 1%float)
         ({| start := 0; stop := 2 |}, {| start := 7; stop := 9 |})
         (Arr Example.ramp) 500%float (Some 1%float) None None None [] [])
  = Raise ValueError.
Proof.
  destruct (@spectrum_plot_on_empty_region_raises
              Example.rfft_power4 Example.mean (Some 1%float) (Some 1%float)
              ({| start := 0; stop := 2 |}, {| start := 7; stop := 9 |})
              (Arr Example.ramp) 500%float None None None [] []
              Example.ramp [] eq_refl I
              ltac:(right; reflexivity))
    as (label & _ & Heq).
  rewrite Heq. reflexivity.
Defined.

Lemma spectrum_plot_saves_then_shows_witness :
  saved (fst (spectrum_plot Example.rfft_power4 Example.mean (Some 1%float)
                Example.roi (Arr Example.ramp) 500%float (Some 1%float) None None
                (Some "spectrum.png") [] []))
  = ["spectrum.png"].
Proof.
  assert (Hblocks : Forall (fun a => shape0 (getitem2 a Example.roi) <> 0%nat
                                     /\ shape1 (getitem2 a Example.roi)
                                        <> 0%nat
                                     /\ (float_of_nat
                                           (shape1 (getitem2 a Example.roi))
                                         * 1 =? 0)%float = false)
                      [Example.ramp]).
  { constructor; [| constructor].
    split; [vm_compute; discriminate |].
    split; [vm_compute; discriminate | reflexivity]. }
  destruct (@spectrum_plot_saves_then_shows
              Example.rfft_power4 Example.mean 1%float 1%float Example.roi
              (Arr Example.ramp) 500%float None None (Some "spectrum.png") [] []
              [Example.ramp] eq_refl ltac:(discriminate) I Hblocks)
    as (calls & _ & _ & _ & Hsaved).
  rewrite Hsaved. reflexivity.
Defined.

(** ** [partialmethod] *)

Section PartialmethodFacts.

Variables (Self V St R : Type).







End PartialmethodFacts.



